(** * Graphic-design evaluators: prompt composition, dispatch and result schemas

    A shallow embedding of the package [gpt_graphic_design_evaluator]:
    the prompt catalog ([gpt_evaluators/prompts.py]), the image encoder
    ([utils.py]), the absolute and the relative evaluator
    ([gpt_evaluators/absolute_evaluator.py], [relative_evaluator.py]) and the
    legacy single-result evaluator ([evaluator.py]).

    The package is glue around three collaborators it does not define: an
    imaging library that writes PNG bytes, a prompting library that holds
    f-string templates and runs a chain of steps, and a schema library that
    validates a JSON reply against a declared class.  The part of each that
    the package exercises is modelled below, next to the code using it. *)

From Stdlib Require Import ZArith Lia Ascii String.
From Stdlib.Strings Require Import Byte.
From stdpp Require Import base option list strings gmap.

Local Open Scope Z_scope.

(** ** Text helpers *)

(** The double-quote character, spelled by its code. *)
Definition dq : string := String "034"%char EmptyString.

(** The line-feed character. *)
Definition nl : string := String "010"%char EmptyString.

(** Joins the lines of a triple-quoted literal: a line feed between two
    consecutive lines and none after the last. *)
Fixpoint unlines (ls : list string) : string :=
  match ls with
  | [] => EmptyString
  | [l] => l
  | l :: ls' => l +:+ nl +:+ unlines ls'
  end.

(** ** Exceptions and results *)

(** One entry of a schema validation report: the field it is about and the
    constraint that failed. *)
Inductive error_detail : Type :=
| missing (loc : string)
| int_type (loc : string)
| string_type (loc : string)
| greater_than_equal (loc : string) (bound : Z)
| less_than_equal (loc : string) (bound : Z)
| literal_error (loc : string) (expected : list string).

(** The exceptions that can leave the package's functions. *)
Inductive exn : Type :=
| NameError (name : string)
| KeyError (key : string)
| ValueError (msg : string)
| ValidationError (title : string) (errors : list error_detail)
| OutputParserException
| TransportError (msg : string)
| Unmodelled (what : string).

Inductive result (A : Type) : Type :=
| Ok (a : A)
| Raise (e : exn).

Arguments Ok {A} a.
Arguments Raise {A} e.

Definition is_ok {A} (r : result A) : bool :=
  match r with Ok _ => true | Raise _ => false end.

(** A schema violation or an unparsable reply, as opposed to a failure of the
    transport to the model or of the caller's own arguments. *)
Definition is_validation_failure (e : exn) : bool :=
  match e with
  | ValidationError _ _ | OutputParserException => true
  | _ => false
  end.

(** Subscription [d[key]] of a dict: the value, or [KeyError]. *)
Definition getitem {V} (d : gmap string V) (key : string) : result V :=
  match d !! key with
  | Some v => Ok v
  | None => Raise (KeyError key)
  end.

(** ** The prompting library's f-string templates

    The evaluators hand their prompt texts to the prompting library, which
    reads them as format strings: [{name}] is a placeholder, possibly with
    a conversion ([{name!r}]) and a format specification ([{name:>10}]),
    and [{{] and [}}] stand for a literal brace.  A template is scanned
    when the prompt object is built and filled in when the chain formats
    it.  The scanner below follows the format-string scanner of the
    language's standard library, state by state and with its error
    messages. *)

Module fstring.

Inductive segment : Type :=
| Lit (text : string)
| Field (name : string)
| Formatted (name : string) (conversion : option ascii) (spec : string).

(** Where the scanner is: in literal text; in a field name, outside or
    inside an index [[...]]; right after [!]; after the conversion
    character; or in a format specification, so many braces deep. *)
Inductive state : Type :=
| Text
| Name (name : string)
| Index (name : string)
| Bang (name : string)
| Converted (name : string) (conversion : ascii)
| Spec (name : string) (conversion : option ascii) (spec : string)
    (depth : nat).

Definition push_char (c : ascii) (segs : list segment) : list segment :=
  match segs with
  | Lit t :: segs' => Lit (String c t) :: segs'
  | _ => Lit (String c EmptyString) :: segs
  end.

Definition fmap_result {A B} (f : A -> B) (r : result A) : result B :=
  match r with
  | Ok a => Ok (f a)
  | Raise e => Raise e
  end.

Definition snoc_char (s : string) (c : ascii) : string :=
  s +:+ String c EmptyString.

(** A replacement field without conversion and with an empty specification
    is a plain placeholder. *)
Definition replacement (name : string) (conversion : option ascii)
    (spec : string) : segment :=
  match conversion, spec with
  | None, EmptyString => Field name
  | _, _ => Formatted name conversion spec
  end.

(** The scanner of the format-string syntax. *)
Fixpoint scan (st : state) (s : string) : result (list segment) :=
  match st, s with
  | Text, EmptyString => Ok []
  | Text, String c s' =>
      if (c =? "{")%char then
        match s' with
        | String c' s'' =>
            if (c' =? "{")%char then fmap_result (push_char c) (scan Text s'')
            else scan (Name EmptyString) s'
        | EmptyString =>
            Raise (ValueError "Single '{' encountered in format string")
        end
      else if (c =? "}")%char then
        match s' with
        | String c' s'' =>
            if (c' =? "}")%char then fmap_result (push_char c) (scan Text s'')
            else Raise (ValueError "Single '}' encountered in format string")
        | EmptyString =>
            Raise (ValueError "Single '}' encountered in format string")
        end
      else fmap_result (push_char c) (scan Text s')
  | Name name, EmptyString =>
      Raise (ValueError "expected '}' before end of string")
  | Name name, String c s' =>
      if (c =? "}")%char then
        fmap_result (cons (replacement name None EmptyString)) (scan Text s')
      else if (c =? "{")%char then
        Raise (ValueError "unexpected '{' in field name")
      else if (c =? "[")%char then scan (Index (snoc_char name c)) s'
      else if (c =? "!")%char then scan (Bang name) s'
      else if (c =? ":")%char then scan (Spec name None EmptyString 0) s'
      else scan (Name (snoc_char name c)) s'
  | Index name, EmptyString =>
      Raise (ValueError "expected '}' before end of string")
  | Index name, String c s' =>
      if (c =? "]")%char then scan (Name (snoc_char name c)) s'
      else scan (Index (snoc_char name c)) s'
  | Bang name, EmptyString =>
      Raise (ValueError
               "end of string while looking for conversion specifier")
  | Bang name, String c s' => scan (Converted name c) s'
  | Converted name conversion, EmptyString =>
      Raise (ValueError "unmatched '{' in format spec")
  | Converted name conversion, String c s' =>
      if (c =? "}")%char then
        fmap_result (cons (replacement name (Some conversion) EmptyString))
          (scan Text s')
      else if (c =? ":")%char then
        scan (Spec name (Some conversion) EmptyString 0) s'
      else Raise (ValueError "expected ':' after conversion specifier")
  | Spec name conversion spec depth, EmptyString =>
      Raise (ValueError "unmatched '{' in format spec")
  | Spec name conversion spec depth, String c s' =>
      if (c =? "{")%char then
        scan (Spec name conversion (snoc_char spec c) (S depth)) s'
      else if (c =? "}")%char then
        match depth with
        | O =>
            fmap_result (cons (replacement name conversion spec))
              (scan Text s')
        | S depth' =>
            scan (Spec name conversion (snoc_char spec c) depth') s'
        end
      else scan (Spec name conversion (snoc_char spec c) depth) s'
  end.

(** What the library makes of a template text when a prompt is built. *)
Definition tokens (template : string) : result (list segment) :=
  scan Text template.

Definition mentions (c : ascii) (s : string) : bool :=
  existsb (Ascii.eqb c) (list_ascii_of_string s).

(** A plain segment: literal text, or a placeholder that is a bare key,
    without conversion, specification, attribute or index. *)
Definition plain (seg : segment) : bool :=
  match seg with
  | Lit _ => true
  | Field name =>
      match name with
      | EmptyString => false
      | _ => negb (mentions "." name) && negb (mentions "[" name)
      end
  | Formatted _ _ _ => false
  end.



(** The templates made of plain segments only; what filling in any other
    placeholder gives is the library's and is outside this model. *)
Definition parse (template : string) : result (list segment) :=
  match tokens template with
  | Ok segs =>
      if forallb plain segs then Ok segs
      else Raise (Unmodelled "placeholder syntax")
  | Raise e => Raise e
  end.

(** Filling a template from the input dict; a placeholder the dict does
    not bind is a [KeyError]. *)
Fixpoint format (segs : list segment) (kwargs : gmap string string)
  : result string :=
  match segs with
  | [] => Ok EmptyString
  | Lit t :: segs' => fmap_result (String.append t) (format segs' kwargs)
  | Field name :: segs' =>
      match kwargs !! name with
      | None => Raise (KeyError name)
      | Some v => fmap_result (String.append v) (format segs' kwargs)
      end
  | Formatted name _ _ :: segs' =>
      match kwargs !! name with
      | None => Raise (KeyError name)
      | Some _ => Raise (Unmodelled "conversion or format specification")
      end
  end.

Fixpoint input_variables (segs : list segment) : list string :=
  match segs with
  | [] => []
  | Lit _ :: segs' => input_variables segs'
  | Field name :: segs' => name :: input_variables segs'
  | Formatted name _ _ :: segs' => name :: input_variables segs'
  end.

End fstring.

(** ** Chat prompts of the prompting library *)

Module chat.

(** A block of a user message as the evaluators write it: the dict
    [{"type": "text", "text": ...}] or
    [{"type": "image_url", "image_url": {"url": ...}}]. *)
Inductive content_block : Type :=
| text_block (text : string)
| image_url_block (url : string).

(** The same block once its text has been parsed as a template. *)
Inductive block_template : Type :=
| text_template (segs : list fstring.segment)
| image_url_template (segs : list fstring.segment).

Record message_template : Type := MessageTemplate {
  template_role : string;
  template_content : list block_template
}.

(** What [from_messages] accepts: a message template built beforehand, or a
    pair of a role and content blocks still to be parsed. *)
Inductive message_like : Type :=
| prebuilt (m : message_template)
| role_and_blocks (role : string) (blocks : list content_block).

(** A formatted message, as sent to the model. *)
Record message : Type := Message {
  role : string;
  content : list content_block
}.

Definition bind_result {A B} (r : result A) (f : A -> result B) : result B :=
  match r with
  | Ok a => f a
  | Raise e => Raise e
  end.

(** Runs [f] over a list from left to right and stops at the first
    exception. *)
Fixpoint traverse {A B} (f : A -> result B) (l : list A) : result (list B) :=
  match l with
  | [] => Ok []
  | a :: l' =>
      bind_result (f a) (fun b =>
      bind_result (traverse f l') (fun bs => Ok (b :: bs)))
  end.

(** [SystemMessagePromptTemplate.from_template(template=...)]. *)
Definition SystemMessagePromptTemplate_from_template (template : string)
  : result message_template :=
  bind_result (fstring.tokens template) (fun segs =>
  Ok (MessageTemplate "system" [text_template segs])).

Definition parse_block (b : content_block) : result block_template :=
  match b with
  | text_block t => fstring.fmap_result text_template (fstring.tokens t)
  | image_url_block u =>
      fstring.fmap_result image_url_template (fstring.tokens u)
  end.

Definition parse_message (m : message_like) : result message_template :=
  match m with
  | prebuilt t => Ok t
  | role_and_blocks r blocks =>
      fstring.fmap_result (MessageTemplate r) (traverse parse_block blocks)
  end.

(** [ChatPromptTemplate.from_messages([...])]. *)
Definition ChatPromptTemplate_from_messages (ms : list message_like)
  : result (list message_template) :=
  traverse parse_message ms.

Definition format_block (kwargs : gmap string string) (b : block_template)
  : result content_block :=
  match b with
  | text_template segs =>
      fstring.fmap_result text_block (fstring.format segs kwargs)
  | image_url_template segs =>
      fstring.fmap_result image_url_block (fstring.format segs kwargs)
  end.

Definition format_message (kwargs : gmap string string) (t : message_template)
  : result message :=
  fstring.fmap_result (Message (template_role t))
    (traverse (format_block kwargs) (template_content t)).

(** Formatting a chat prompt with one input dict. *)
Definition format_messages (prompt : list message_template)
    (kwargs : gmap string string) : result (list message) :=
  traverse (format_message kwargs) prompt.

(** The image references a formatted message carries. *)
Definition image_urls (m : message) : list string :=
  omap (fun b => match b with
                 | image_url_block u => Some u
                 | text_block _ => None
                 end) (content m).

End chat.

(** ** Standard base64 *)

Module base64.

Definition alphabet : string :=
  "ABCDEFGHIJKLMNOPQRSTUVWXYZabcdefghijklmnopqrstuvwxyz0123456789+/".

Definition pad : ascii := "="%char.

(** The character of a 6-bit value. *)
Definition sextet (n : N) : ascii :=
  match String.get (N.to_nat (N.land n 63)) alphabet with
  | Some c => c
  | None => pad
  end.

Definition chars (l : list ascii) : string :=
  string_of_list_ascii l.

(** [base64.b64encode]: three bytes become four characters, and a final
    group of one or two bytes is padded with [=]. *)
Fixpoint b64encode (bs : list byte) : string :=
  match bs with
  | [] => EmptyString
  | [a] =>
      let n := N.shiftl (Byte.to_N a) 16 in
      chars [sextet (N.shiftr n 18); sextet (N.shiftr n 12); pad; pad]
  | [a; b] =>
      let n := N.lor (N.shiftl (Byte.to_N a) 16) (N.shiftl (Byte.to_N b) 8) in
      chars [sextet (N.shiftr n 18); sextet (N.shiftr n 12);
             sextet (N.shiftr n 6); pad]
  | a :: b :: c :: bs' =>
      let n := N.lor (N.lor (N.shiftl (Byte.to_N a) 16)
                            (N.shiftl (Byte.to_N b) 8)) (Byte.to_N c) in
      chars [sextet (N.shiftr n 18); sextet (N.shiftr n 12);
             sextet (N.shiftr n 6); sextet n] +:+ b64encode bs'
  end.

(** The 6-bit value of a character of the alphabet. *)
Fixpoint index_of (c : ascii) (s : string) : option N :=
  match s with
  | EmptyString => None
  | String c' s' =>
      if (c =? c')%char then Some 0%N else option_map N.succ (index_of c s')
  end.

Definition value (c : ascii) : N :=
  match index_of c alphabet with
  | Some n => n
  | None => 0%N
  end.

Definition octet (n : N) : byte :=
  match Byte.of_N (N.land n 255) with
  | Some b => b
  | None => x00
  end.

(** Reading an encoded text back, four characters at a time; padding marks
    the last group. *)
Fixpoint b64decode (s : string) : list byte :=
  match s with
  | String c1 (String c2 (String c3 (String c4 s'))) =>
      let n := N.lor (N.lor (N.lor (N.shiftl (value c1) 18)
                                   (N.shiftl (value c2) 12))
                            (N.shiftl (value c3) 6)) (value c4) in
      if (c3 =? pad)%char then [octet (N.shiftr n 16)]
      else if (c4 =? pad)%char then
        [octet (N.shiftr n 16); octet (N.shiftr n 8)]
      else
        octet (N.shiftr n 16) :: octet (N.shiftr n 8) :: octet n
        :: b64decode s'
  | _ => []
  end.

(** The characters an encoded text is made of. *)
Definition base64_char (c : ascii) : bool :=
  (c =? pad)%char
  || match index_of c alphabet with Some _ => true | None => false end.

End base64.

(** ** The schema library's validation of declared classes

    A result class declares typed fields with constraints
    ([Field(ge=1, le=10)], a [Literal] of tags); building an instance from
    keyword arguments or from a decoded JSON object validates every field
    and raises one [ValidationError] listing all violations. *)

Module schema.

Inductive jvalue : Type :=
| JNull
| JBool (b : bool)
| JInt (z : Z)
| JStr (s : string).

(** What the schema library does with a value that is not natively of the
    field's type (a numeric string for an integer field, say): its own
    conversion table, left to the library. *)
Class Lax : Type := {
  lax_int : jvalue -> option Z;
  lax_str : jvalue -> option string
}.

(** The keyword arguments of [Field(...)] that the package uses. *)
Record FieldInfo : Type := Field {
  ge : option Z;
  le : option Z;
  description : string
}.

(** A declared field: its annotation together with its [Field(...)]. *)
Inductive property : Type :=
| int_property (f : FieldInfo)
| str_property (f : FieldInfo)
| literal_property (allowed : list string) (f : FieldInfo).

Definition as_int `{Lax} (v : jvalue) : option Z :=
  match v with
  | JInt z => Some z
  | _ => lax_int v
  end.

Definition as_str `{Lax} (v : jvalue) : option string :=
  match v with
  | JStr s => Some s
  | _ => lax_str v
  end.

Definition check_ge (loc : string) (f : FieldInfo) (z : Z)
  : list error_detail :=
  match ge f with
  | Some b => if decide (b <= z) then [] else [greater_than_equal loc b]
  | None => []
  end.

Definition check_le (loc : string) (f : FieldInfo) (z : Z)
  : list error_detail :=
  match le f with
  | Some b => if decide (z <= b) then [] else [less_than_equal loc b]
  | None => []
  end.

(** The outcome for one field: its violations, or its validated value. *)
Definition checked (A : Type) : Type := list error_detail + A.

Definition int_field `{Lax} (loc : string) (f : FieldInfo)
    (data : gmap string jvalue) : checked Z :=
  match data !! loc with
  | None => inl [missing loc]
  | Some v =>
      match as_int v with
      | None => inl [int_type loc]
      | Some z =>
          match check_ge loc f z ++ check_le loc f z with
          | [] => inr z
          | errs => inl errs
          end
      end
  end.

Definition str_field `{Lax} (loc : string) (data : gmap string jvalue)
  : checked string :=
  match data !! loc with
  | None => inl [missing loc]
  | Some v =>
      match as_str v with
      | None => inl [string_type loc]
      | Some s => inr s
      end
  end.

(** A [Literal[...]] field admits exactly the listed strings, unconverted. *)
Definition literal_field (loc : string) (allowed : list string)
    (data : gmap string jvalue) : checked string :=
  match data !! loc with
  | None => inl [missing loc]
  | Some (JStr s) =>
      if decide (s ∈ allowed) then inr s else inl [literal_error loc allowed]
  | Some _ => inl [literal_error loc allowed]
  end.

(** Two fields of one class: the violations of both are reported. *)
Definition both {A B} (a : checked A) (b : checked B) : checked (A * B) :=
  match a, b with
  | inr x, inr y => inr (x, y)
  | inl ea, inr _ => inl ea
  | inr _, inl eb => inl eb
  | inl ea, inl eb => inl (ea ++ eb)
  end.

Definition finish {A B} (title : string) (build : A -> B) (c : checked A)
  : result B :=
  match c with
  | inr a => Ok (build a)
  | inl errs => Raise (ValidationError title errs)
  end.

(** The interface of a declared result class: the schema it advertises and
    its validating constructor. *)
Class BaseModel (C : Type) : Type := {
  title : string;
  docstring : string;
  properties : list (string * property);
  model_validate : gmap string jvalue -> result C
}.

End schema.

(** ** The model client, the world it acts on, and the chain runner *)

Module llm.

(** What comes back for one request: no reply at all (the transport failed),
    a reply that is not a JSON object, or a decoded JSON object. *)
Inductive reply : Type :=
| unreachable (msg : string)
| garbled (text : string)
| json_object (data : gmap string schema.jvalue).

(** The output schema bound by [with_structured_output]. *)
Record json_schema : Type := JsonSchema {
  schema_title : string;
  schema_doc : string;
  schema_properties : list (string * schema.property)
}.

Record request : Type := Request {
  messages : list chat.message;
  response_format : json_schema
}.

(** A chat model: its reply to a request may differ from one request to the
    next, so it is indexed by the number of requests served before. *)
Record BaseChatModel : Type := {
  generate : nat -> request -> reply
}.

End llm.

(** The state the package's functions act on: the in-memory byte buffers
    allocated so far and the requests sent to the model so far. *)
Record World : Type := mkWorld {
  buffers : list (list byte);
  sent : list llm.request
}.

(** Computations that read and update the world and may raise. *)
Definition M (A : Type) : Type := World -> result A * World.

Definition ret {A} (a : A) : M A := fun w => (Ok a, w).

Definition raise {A} (e : exn) : M A := fun w => (Raise e, w).

Definition bind {A B} (m : M A) (k : A -> M B) : M B :=
  fun w =>
    match m w with
    | (Ok a, w') => k a w'
    | (Raise e, w') => (Raise e, w')
    end.

Definition lift {A} (r : result A) : M A := fun w => (r, w).

Notation "'let*' x ':=' m 'in' k" := (bind m (fun x => k))
  (at level 10, x name, m at level 100, k at level 200).

Module chain.

Import schema llm.

Definition schema_of (C : Type) `{BaseModel C} : json_schema :=
  JsonSchema title docstring properties.

(** [prompt | llm.with_structured_output(C)]: the prompt, the model bound to
    the schema of [C], and the parser into [C]. *)
Record t (C : Type) `{BaseModel C} : Type := pipe {
  prompt : list chat.message_template;
  model : BaseChatModel
}.

Arguments pipe {C _} prompt model.
Arguments prompt {C _} _.
Arguments model {C _} _.

(** Sending one formatted prompt: the request is recorded and the model's
    reply to it taken. *)
Definition dispatch (m : BaseChatModel) (s : json_schema)
    (msgs : list chat.message) : M reply :=
  fun w =>
    let req := Request msgs s in
    (Ok (generate m (length (sent w)) req),
     mkWorld (buffers w) (sent w ++ [req])).

Fixpoint dispatch_all (m : BaseChatModel) (s : json_schema)
    (prompts : list (list chat.message)) : M (list reply) :=
  match prompts with
  | [] => ret []
  | p :: ps =>
      let* r := dispatch m s p in
      let* rs := dispatch_all m s ps in
      ret (r :: rs)
  end.

(** A failed transport surfaces as the client's exception. *)
Definition received (r : reply) : result reply :=
  match r with
  | unreachable msg => Raise (TransportError msg)
  | _ => Ok r
  end.

(** The structured-output parser: the reply must decode to a JSON object
    that validates as an instance of [C]. *)
Definition parse_reply {C} `{BaseModel C} (r : reply) : result C :=
  match r with
  | unreachable msg => Raise (TransportError msg)
  | garbled _ => Raise OutputParserException
  | json_object data => model_validate data
  end.

(** [chain.invoke(input)]: format, send, parse. *)
Definition invoke {C} `{BaseModel C} (ch : t C) (input : gmap string string)
  : M C :=
  let* msgs := lift (chat.format_messages (prompt ch) input) in
  let* r := dispatch (model ch) (schema_of C) msgs in
  let* r' := lift (received r) in
  lift (parse_reply r').

(** [chain.batch(inputs)]: nothing to do for no input; otherwise the chain
    runs step by step over the whole batch, every prompt being formatted
    before any is sent and every request sent before any reply is parsed;
    the first exception of a step, in input order, is raised. *)
Definition batch {C} `{BaseModel C} (ch : t C)
    (inputs : list (gmap string string)) : M (list C) :=
  match inputs with
  | [] => ret []
  | _ =>
      let* prompts :=
        lift (chat.traverse (chat.format_messages (prompt ch)) inputs) in
      let* replies := dispatch_all (model ch) (schema_of C) prompts in
      let* replies' := lift (chat.traverse received replies) in
      lift (chat.traverse parse_reply replies')
  end.

End chain.

(** ** Byte buffers and the imaging library *)

Module io.

(** [io.BytesIO()]: a new, empty buffer; its handle is its index. *)
Definition BytesIO : M nat :=
  fun w => (Ok (length (buffers w)), mkWorld (buffers w ++ [[]]) (sent w)).

(** Appends to a buffer. *)
Definition write (fp : nat) (data : list byte) : M unit :=
  fun w =>
    match buffers w !! fp with
    | Some old => (Ok tt, mkWorld (<[fp := old ++ data]> (buffers w)) (sent w))
    | None => (Raise (ValueError "I/O operation on closed file"), w)
    end.

Definition getvalue (fp : nat) : M (list byte) :=
  fun w =>
    match buffers w !! fp with
    | Some data => (Ok data, w)
    | None => (Raise (ValueError "I/O operation on closed file"), w)
    end.

End io.

(** The imaging library: the bitmaps it can write as PNG, and the bytes of
    the PNG file it writes for one.  Bitmaps in a mode that PNG cannot hold,
    on which the writer raises, are not in [Image]. *)
Class Imaging : Type := {
  Image : Type;
  png_file : Image -> list byte
}.

(** [image.save(fp, format="PNG")]. *)
Definition Image_save `{Imaging} (image : Image) (fp : nat) : M unit :=
  io.write fp (png_file image).

(** ** utils.py *)

Module utils.

Definition image_to_base64 `{Imaging} (image : Image) : M string :=
  let* buffered := io.BytesIO in
  let* _ := Image_save image buffered in
  let* value := io.getvalue buffered in
  ret (base64.b64encode value).

End utils.

(** ** gpt_evaluators/prompts.py *)

Module prompts.

Definition DEFAULT_ALIGNMENT_DESIGN_PRINCIPLE : string :=
  unlines [
    "Correct alignment is an important aspect of design that has been modeled in other layout applications. Text and graphic elements are aligned on the page to indicate organizational structure and aesthetics.";
    EmptyString;
    "Please evaluate the alignment of the input graphic design considering the following points.";
    EmptyString;
    "1. Alignment along with the horizontal and vertical direction is considered.";
    "2. The elements that align at a glance but slight misalignment are penalized because it is visually displeasing.";
    "3. Larger alignment groups (i.e., aligned elements that are distant from each other) are preferred as they produce simpler designs with more unity between elements." ].

Definition DEFAULT_OVERLAP_DESIGN_PRINCIPLE : string :=
  unlines [
    "Overlapping elements are common in many designs and absent from others.";
    "Less or proper overlapping might be considered aesthetically pleasing, but others are not.";
    EmptyString;
    "Please consider the following points to evaluate the overlap.";
    EmptyString;
    "1. The three types of overlap, the overlap of elements on text, the overlap of text on graphics, and the overlap of graphics on other graphics, are considered.";
    "2. Hard-to-read text because of insufficient color contrast between a text and the background color is penalized.";
    "3. The graphic design that includes elements extending past the boundaries is also penalized." ].

Definition DEFAULT_WHITE_SPACE_DESIGN_PRINCIPLE : string :=
  unlines [
    "White space in graphic designs is fundamental for readability and aesthetics. Element distance is also closely related to the principle of proximity, as elements placed near each other may appear to be related. White space also influences the overall design style; many modern designs use significant white space. White space 'trapped' between elements can also be distracting. ";
    EmptyString;
    "Evaluate the white space considering the following points.";
    EmptyString;
    "1.A large ratio of white space that is not covered by design elements (e.g., graphics and tests) is preferred.";
    "2. However, the graphic design with a too large region of empty white space on the image is undesirable.";
    "3. The greater the distance between each element is preferred.";
    "4. Uniformed vertical spacing of each text element is preferred.";
    "5. Wider border margins for each element are preferred." ].

(** The three tags of the [DesignPrinciple] literal type. *)
Definition DesignPrinciple : list string :=
  ["alignment"; "overlap"; "whitespace"].

Definition DESIGN_PRINCIPLES : gmap string string :=
  <["alignment" := DEFAULT_ALIGNMENT_DESIGN_PRINCIPLE]>
  (<["overlap" := DEFAULT_OVERLAP_DESIGN_PRINCIPLE]>
  (<["whitespace" := DEFAULT_WHITE_SPACE_DESIGN_PRINCIPLE]> ∅)).

End prompts.
(** Python's [x or default] on an optional string: [None] and the empty
    string are both falsy. *)
Definition or_default (x : option string) (default : string) : string :=
  match x with
  | Some (String _ _ as s) => s
  | _ => default
  end.

(** Reading a variable: the value bound to the name, or [NameError]. *)
Definition load_name {A} (scope : gmap string A) (name : string) : result A :=
  match scope !! name with
  | Some v => Ok v
  | None => Raise (NameError name)
  end.

(** ** gpt_evaluators/absolute_evaluator.py *)

Module absolute_evaluator.

Import schema.

Definition DEFAULT_SYSTEM_PROMPT : string :=
  unlines [
    "You are an autonomous AI Assistant who aids designers by providing insightful, objective, and constructive critiques of graphic design projects. Your goals are: " +:+ dq +:+ "Deliver comprehensive and unbiased evaluations of graphic designs based on the following design principles." +:+ dq;
    EmptyString;
    "Grade seriously. The range of scores is from 1 to 10. A flawless design can earn 10 points, a mediocre design can only earn 7 points, a design with obvious shortcomings can only earn 4 points, and a very poor design can only earn 1-2 points.";
    EmptyString;
    "{design_principle}";
    EmptyString;
    "If the output is too long, it will be truncated. Only respond in JSON format, no other information. Example of output for a better graphic design:";
    EmptyString;
    "{{";
    "    " +:+ dq +:+ "score" +:+ dq +:+ ": 6, ";
    "    " +:+ dq +:+ "explanation" +:+ dq +:+ ": " +:+ dq +:+ "Please concisely explain the reason of the score." +:+ dq;
    "}}" ].

Definition USER_PROMPT : string :=
  unlines [
    "Please score the following images." ].

Record AbsoluteEvaluationResult : Type := {
  score : Z;
  explanation : string
}.

Definition score_field : FieldInfo :=
  Field (Some 1) (Some 10) "Score from 1 to 10.".

Definition explanation_field : FieldInfo :=
  Field None None "Concise explanation of the reason of the score.".

#[global] Instance AbsoluteEvaluationResult_model `{Lax}
  : BaseModel AbsoluteEvaluationResult := {|
  title := "AbsoluteEvaluationResult";
  docstring := "Evaluation result model for graphic design evaluation.";
  properties := [("score", int_property score_field);
                 ("explanation", str_property explanation_field)];
  model_validate data :=
    finish "AbsoluteEvaluationResult"
      (fun '(s, e) => Build_AbsoluteEvaluationResult s e)
      (both (int_field "score" score_field data)
            (str_field "explanation" data))
|}.

Record GPTGraphicDesignAbsoluteEvaluator : Type := {
  llm : llm.BaseChatModel
}.

Section Evaluate.

Context {imaging : Imaging} {lax : Lax}.

Definition evaluate (self : GPTGraphicDesignAbsoluteEvaluator)
    (image : Image) (design_principle_prompt : string)
    (system_prompt_template : option string) (num_return : Z)
  : M (list AbsoluteEvaluationResult) :=
  let system_prompt_template :=
    or_default system_prompt_template DEFAULT_SYSTEM_PROMPT in
  let* system_prompt :=
    lift (chat.SystemMessagePromptTemplate_from_template
            system_prompt_template) in
  let user_prompt :=
    chat.role_and_blocks "user"
      [chat.text_block USER_PROMPT;
       chat.image_url_block "data:image/png;base64,{base64_image}"] in
  let* prompt :=
    lift (chat.ChatPromptTemplate_from_messages
            [chat.prebuilt system_prompt; user_prompt]) in
  let chain := chain.pipe (C := AbsoluteEvaluationResult) prompt (llm self) in
  let* base64_image := utils.image_to_base64 image in
  let input_data : gmap string string :=
    <["design_principle" := design_principle_prompt]>
    (<["base64_image" := base64_image]> ∅) in
  let inputs := replicate (Z.to_nat num_return) input_data in
  chain.batch chain inputs.

Definition __call__ (self : GPTGraphicDesignAbsoluteEvaluator)
    (image : Image) (design_principle : string) (num_return : Z)
  : M (list AbsoluteEvaluationResult) :=
  let* design_principle_prompt :=
    lift (getitem prompts.DESIGN_PRINCIPLES design_principle) in
  evaluate self image design_principle_prompt (Some DEFAULT_SYSTEM_PROMPT)
    num_return.

End Evaluate.

End absolute_evaluator.

(** ** gpt_evaluators/relative_evaluator.py *)

Module relative_evaluator.

Import schema.

Definition DEFAULT_SYSTEM_PROMPT : string :=
  unlines [
    "You are an autonomous AI Assistant who aids designers by providing insightful, objective, and constructive";
    "critiques of graphic design projects. ";
    EmptyString;
    "Your goals are: " +:+ dq +:+ "Deliver comprehensive and unbiased evaluations of graphic designs based on the following design principles." +:+ dq;
    EmptyString;
    "{design_principle}";
    EmptyString;
    "If the output is too long, it will be truncated. Only respond in JSON format, no other information. Example of output for a better graphic design (a):";
    EmptyString;
    "{{";
    "    " +:+ dq +:+ "better_design" +:+ dq +:+ ": " +:+ dq +:+ "a" +:+ dq +:+ ",";
    "    " +:+ dq +:+ "explanation" +:+ dq +:+ ": " +:+ dq +:+ "(Please concisely explain the reason of choice.)" +:+ dq;
    "}}";
    EmptyString;
    "If both images are the same quality, answer";
    EmptyString;
    "{{";
    "    " +:+ dq +:+ "better_design" +:+ dq +:+ ": " +:+ dq +:+ "both" +:+ dq +:+ ", ";
    "    " +:+ dq +:+ "explanation" +:+ dq +:+ ": " +:+ dq +:+ "(Please concisely explain the reason of choice.)" +:+ dq;
    "}}";
    EmptyString ].

Definition USER_PROMPT : string :=
  unlines [
    "Which of the following graphic designs has better quality regarding the above-described points? (a)[image] (b)[image]";
    EmptyString ].

Record RelativeEvaluationResult : Type := {
  better_design : string;
  explanation : string
}.

(** The tags of the [Literal] annotating [better_design]. *)
Definition better_design_literal : list string :=
  ["none"; "small"; "medium"; "large"; "both"].

Definition better_design_field : FieldInfo :=
  Field None None
    ("The better design among " +:+ dq +:+ "a" +:+ dq +:+ ", " +:+ dq +:+ "b"
     +:+ dq +:+ ", or " +:+ dq +:+ "both" +:+ dq +:+ ".").

Definition explanation_field : FieldInfo :=
  Field None None "Concise explanation of the reason of choice.".

#[global] Instance RelativeEvaluationResult_model `{Lax}
  : BaseModel RelativeEvaluationResult := {|
  title := "RelativeEvaluationResult";
  docstring :=
    "Evaluation result model for graphic design relative evaluation.";
  properties :=
    [("better_design",
      literal_property better_design_literal better_design_field);
     ("explanation", str_property explanation_field)];
  model_validate data :=
    finish "RelativeEvaluationResult"
      (fun '(b, e) => Build_RelativeEvaluationResult b e)
      (both (literal_field "better_design" better_design_literal data)
            (str_field "explanation" data))
|}.

Record GPTGraphicDesignRelativeEvaluator : Type := {
  llm : llm.BaseChatModel
}.

Section Evaluate.

Context {imaging : Imaging} {lax : Lax}.

(** The image-valued names in scope in the body of [evaluate]: its two image
    parameters.  Nothing else visible there, local, global or builtin, is
    spelled [image]. *)
Definition images_in_scope (image_a image_b : Image) : gmap string Image :=
  <["image_a" := image_a]> (<["image_b" := image_b]> ∅).

Definition evaluate (self : GPTGraphicDesignRelativeEvaluator)
    (image_a image_b : Image) (design_principle_prompt : string)
    (system_prompt_template : option string) (num_return : Z)
  : M (list RelativeEvaluationResult) :=
  let system_prompt_template :=
    or_default system_prompt_template DEFAULT_SYSTEM_PROMPT in
  let* system_prompt :=
    lift (chat.SystemMessagePromptTemplate_from_template
            system_prompt_template) in
  let user_prompt :=
    chat.role_and_blocks "user"
      [chat.text_block USER_PROMPT;
       chat.image_url_block "data:image/png;base64,{base64_image}"] in
  let* prompt :=
    lift (chat.ChatPromptTemplate_from_messages
            [chat.prebuilt system_prompt; user_prompt]) in
  let chain := chain.pipe (C := RelativeEvaluationResult) prompt (llm self) in
  let* image := lift (load_name (images_in_scope image_a image_b) "image") in
  let* base64_image := utils.image_to_base64 image in
  let input_data : gmap string string :=
    <["design_principle" := design_principle_prompt]>
    (<["base64_image" := base64_image]> ∅) in
  let inputs := replicate (Z.to_nat num_return) input_data in
  chain.batch chain inputs.

Definition __call__ (self : GPTGraphicDesignRelativeEvaluator)
    (image_a image_b : Image) (design_principle : string) (num_return : Z)
  : M (list RelativeEvaluationResult) :=
  let* design_principle_prompt :=
    lift (getitem prompts.DESIGN_PRINCIPLES design_principle) in
  evaluate self image_a image_b design_principle_prompt
    (Some DEFAULT_SYSTEM_PROMPT) num_return.

End Evaluate.

End relative_evaluator.

(** ** evaluator.py *)

Module evaluator.

Import schema.

Definition SYSTEM_PROMPT : string :=
  unlines [
    "You are an autonomous AI Assistant who aids designers by providing insightful, objective, and constructive critiques of graphic design projects. Your goals are: " +:+ dq +:+ "Deliver comprehensive and unbiased evaluations of graphic designs based on the following design principles." +:+ dq;
    EmptyString;
    "Grade seriously. The range of scores is from 1 to 10. A flawless design can earn 10 points, a mediocre design can only earn 7 points, a design with obvious shortcomings can only earn 4 points, and a very poor design can only earn 1-2 points.";
    EmptyString;
    "{design_principle}";
    EmptyString;
    "If the output is too long, it will be truncated. Only respond in JSON format, no other information. Example of output for a better graphic design:";
    EmptyString;
    "{{";
    "    " +:+ dq +:+ "score" +:+ dq +:+ ": 6, ";
    "    " +:+ dq +:+ "explanation" +:+ dq +:+ ": " +:+ dq +:+ "Please concisely explain the reason of the score." +:+ dq;
    "}}" ].

Definition ALIGNMENT_DESIGN_PRINCIPLE : string :=
  unlines [
    "Correct alignment is an important aspect of design that has been modeled in other layout applications. Text and graphic elements are aligned on the page to indicate organizational structure and aesthetics.";
    EmptyString;
    "Please evaluate the alignment of the input graphic design considering the following points.";
    EmptyString;
    "1. Alignment along with the horizontal and vertical direction is considered.";
    "2. The elements that align at a glance but slight misalignment are penalized because it is visually displeasing.";
    "3. Larger alignment groups (i.e., aligned elements that are distant from each other) are preferred as they produce simpler designs with more unity between elements." ].

Definition OVERLAP_DESIGN_PRINCIPLE : string :=
  unlines [
    "Overlapping elements are common in many designs and absent from others.";
    "Less or proper overlapping might be considered aesthetically pleasing, but others are not.";
    EmptyString;
    "Please consider the following points to evaluate the overlap.";
    EmptyString;
    "1. The three types of overlap, the overlap of elements on text, the overlap of text on graphics, and the overlap of graphics on other graphics, are considered.";
    "2. Hard-to-read text because of insufficient color contrast between a text and the background color is penalized.";
    "3. The graphic design that includes elements extending past the boundaries is also penalized." ].

Definition WHITE_SPACE_DESIGN_PRINCIPLE : string :=
  unlines [
    "White space in graphic designs is fundamental for readability and aesthetics. Element distance is also closely related to the principle of proximity, as elements placed near each other may appear to be related. White space also influences the overall design style; many modern designs use significant white space. White space 'trapped' between elements can also be distracting. ";
    EmptyString;
    "Evaluate the white space considering the following points.";
    EmptyString;
    "1.A large ratio of white space that is not covered by design elements (e.g., graphics and tests) is preferred.";
    "2. However, the graphic design with a too large region of empty white space on the image is undesirable.";
    "3. The greater the distance between each element is preferred.";
    "4. Uniformed vertical spacing of each text element is preferred.";
    "5. Wider border margins for each element are preferred." ].

Definition USER_PROMPT : string :=
  unlines [
    "Please score the following images." ].

Definition DESIGN_PRINCIPLES : gmap string string :=
  <["alignment" := ALIGNMENT_DESIGN_PRINCIPLE]>
  (<["overlap" := OVERLAP_DESIGN_PRINCIPLE]>
  (<["whitespace" := WHITE_SPACE_DESIGN_PRINCIPLE]> ∅)).

Record EvaluationResult : Type := {
  score : Z;
  explanation : string
}.

Definition score_field : FieldInfo :=
  Field (Some 1) (Some 10) "Score from 1 to 10.".

Definition explanation_field : FieldInfo :=
  Field None None "Concise explanation of the reason of the score.".

#[global] Instance EvaluationResult_model `{Lax}
  : BaseModel EvaluationResult := {|
  title := "EvaluationResult";
  docstring := "Evaluation result model for graphic design evaluation.";
  properties := [("score", int_property score_field);
                 ("explanation", str_property explanation_field)];
  model_validate data :=
    finish "EvaluationResult"
      (fun '(s, e) => Build_EvaluationResult s e)
      (both (int_field "score" score_field data)
            (str_field "explanation" data))
|}.

Record GPTGraphicDesignEvaluator : Type := {
  llm : llm.BaseChatModel
}.

Section Evaluate.

Context {imaging : Imaging} {lax : Lax}.

Definition _image_to_base64 (self : GPTGraphicDesignEvaluator)
    (image : Image) : M string :=
  let* buffered := io.BytesIO in
  let* _ := Image_save image buffered in
  let* value := io.getvalue buffered in
  ret (base64.b64encode value).

Definition evaluate (self : GPTGraphicDesignEvaluator)
    (image : Image) (design_principle_prompt : string)
    (system_prompt_template : option string) : M EvaluationResult :=
  let system_prompt_template :=
    or_default system_prompt_template SYSTEM_PROMPT in
  let* system_prompt :=
    lift (chat.SystemMessagePromptTemplate_from_template
            system_prompt_template) in
  let user_prompt :=
    chat.role_and_blocks "user"
      [chat.text_block USER_PROMPT;
       chat.image_url_block "data:image/png;base64,{base64_image}"] in
  let* prompt :=
    lift (chat.ChatPromptTemplate_from_messages
            [chat.prebuilt system_prompt; user_prompt]) in
  let chain := chain.pipe (C := EvaluationResult) prompt (llm self) in
  let* base64_image := _image_to_base64 self image in
  let input_data : gmap string string :=
    <["design_principle" := design_principle_prompt]>
    (<["base64_image" := base64_image]> ∅) in
  chain.invoke chain input_data.

Definition __call__ (self : GPTGraphicDesignEvaluator)
    (image : Image) (design_principle : string) : M EvaluationResult :=
  let* design_principle_prompt :=
    lift (getitem DESIGN_PRINCIPLES design_principle) in
  evaluate self image design_principle_prompt (Some SYSTEM_PROMPT).

End Evaluate.

End evaluator.

(** ** Keyword construction of the result classes *)

Section Construction.

Context {lax : schema.Lax}.

Import schema.

(** [AbsoluteEvaluationResult(score=..., explanation=...)]. *)
Definition AbsoluteEvaluationResult_init (score : Z) (explanation : string)
  : result absolute_evaluator.AbsoluteEvaluationResult :=
  model_validate
    (<["score" := JInt score]> (<["explanation" := JStr explanation]> ∅)).

(** [EvaluationResult(score=..., explanation=...)]. *)
Definition EvaluationResult_init (score : Z) (explanation : string)
  : result evaluator.EvaluationResult :=
  model_validate
    (<["score" := JInt score]> (<["explanation" := JStr explanation]> ∅)).

(** [RelativeEvaluationResult(better_design=..., explanation=...)]. *)
Definition RelativeEvaluationResult_init (better_design explanation : string)
  : result relative_evaluator.RelativeEvaluationResult :=
  model_validate
    (<["better_design" := JStr better_design]>
     (<["explanation" := JStr explanation]> ∅)).

End Construction.

(** ** Vocabulary of the statements *)

(** The prompt object the three evaluators build: a system message from the
    template and a user message of one text block and one image block. *)
Definition build_prompt (system_prompt_template user_text : string)
  : result (list chat.message_template) :=
  chat.bind_result
    (chat.SystemMessagePromptTemplate_from_template system_prompt_template)
    (fun system_prompt =>
       chat.ChatPromptTemplate_from_messages
         [chat.prebuilt system_prompt;
          chat.role_and_blocks "user"
            [chat.text_block user_text;
             chat.image_url_block "data:image/png;base64,{base64_image}"]]).

(** The input dict the evaluators pass to the chain. *)
Definition input_data (design_principle_prompt base64_image : string)
  : gmap string string :=
  <["design_principle" := design_principle_prompt]>
  (<["base64_image" := base64_image]> ∅).

(** The world after one image has been encoded in it. *)
Definition encoded `{Imaging} (image : Image) (w : World) : World :=
  mkWorld (buffers w ++ [png_file image]) (sent w).

(** The replies the model gives to [n] copies of one request sent in a row,
    starting from a world where [k] requests were sent before. *)
Definition replies (m : llm.BaseChatModel) (k n : nat) (req : llm.request)
  : list llm.reply :=
  map (fun i => llm.generate m (k + i)%nat req) (seq 0 n).

(** What a batch returns from the replies it received. *)
Definition batch_outcome {C} `{schema.BaseModel C} (rs : list llm.reply)
  : result (list C) :=
  chat.bind_result (chat.traverse chain.received rs)
    (chat.traverse chain.parse_reply).

(** The text of the system message for a template and an input dict. *)
Definition system_text (t p b : string) : result string :=
  chat.bind_result (fstring.tokens t)
    (fun segs => fstring.format segs (input_data p b)).

(** The messages an evaluator sends for a template, a user text, a principle
    text and an image payload. *)
Definition composed_messages (t user p b : string)
  : result (list chat.message) :=
  chat.bind_result (build_prompt t user)
    (fun prompt => chat.format_messages prompt (input_data p b)).

(** The two messages of a request: the system text, then the user text
    followed by one image reference. *)
Definition two_messages (user b system : string) : list chat.message :=
  [chat.Message "system" [chat.text_block system];
   chat.Message "user"
     [chat.text_block user;
      chat.image_url_block ("data:image/png;base64," +:+ b)]].

(** A reply that breaks the absolute result schema in one of the ways the
    model can: it is no JSON object, a field is missing, or its integer
    score is out of range. *)
Definition schema_violation (r : llm.reply) : Prop :=
  match r with
  | llm.unreachable _ => False
  | llm.garbled _ => True
  | llm.json_object data =>
      data !! "score" = None \/ data !! "explanation" = None
      \/ exists z, data !! "score" = Some (schema.JInt z) /\ ~ (1 <= z <= 10)
  end.

(** The reply of the mocked model of the tests. *)
Definition seven_ok : gmap string schema.jvalue :=
  <["score" := schema.JInt 7]> (<["explanation" := schema.JStr "ok"]> ∅).

(** Two failures that agree up to the name of the class in a validation
    report. *)
Definition same_failure (e e' : exn) : Prop :=
  match e, e' with
  | ValidationError _ errs, ValidationError _ errs' => errs = errs'
  | _, _ => e = e'
  end.

(** ** Test doubles *)

Module doubles.

(** A bitmap: its size and its pixel buffer. *)
Record Bitmap : Type := {
  width : N;
  height : N;
  pixels : list byte
}.

(** A stand-in for the PNG writer: the first four bytes of the PNG
    signature, the two dimensions and the pixel buffer. *)
Definition toy_png (b : Bitmap) : list byte :=
  [x89; x50; x4e; x47]
  ++ [default x00 (Byte.of_N (width b)); default x00 (Byte.of_N (height b))]
  ++ pixels b.

#[export] Instance toy_imaging : Imaging := {|
  Image := Bitmap;
  png_file := toy_png
|}.

(** No conversion of foreign values at all. *)
#[export] Instance strict : schema.Lax := {|
  schema.lax_int _ := None;
  schema.lax_str _ := None
|}.

(** A model that answers every request with the same JSON object. *)
Definition echo (data : gmap string schema.jvalue) : llm.BaseChatModel :=
  {| llm.generate _ _ := llm.json_object data |}.

Definition white_pixel : Bitmap :=
  {| width := 1; height := 1; pixels := [xff; xff; xff] |}.

Definition black_pixel : Bitmap :=
  {| width := 1; height := 1; pixels := [x00; x00; x00] |}.

Definition empty_world : World := mkWorld [] [].

(** The three evaluators over the mocked model of the tests, which echoes
    a score of 7. *)
Definition mock_absolute
  : absolute_evaluator.GPTGraphicDesignAbsoluteEvaluator :=
  {| absolute_evaluator.llm := echo seven_ok |}.

Definition mock_relative
  : relative_evaluator.GPTGraphicDesignRelativeEvaluator :=
  {| relative_evaluator.llm := echo seven_ok |}.

Definition mock_legacy : evaluator.GPTGraphicDesignEvaluator :=
  {| evaluator.llm := echo seven_ok |}.

(** A model that scores every design 99. *)
Definition ninety_nine : gmap string schema.jvalue :=
  <["score" := schema.JInt 99]> (<["explanation" := schema.JStr "great"]> ∅).

Definition overrating : absolute_evaluator.GPTGraphicDesignAbsoluteEvaluator :=
  {| absolute_evaluator.llm := echo ninety_nine |}.

End doubles.

(** ** How the building blocks run *)

Section Runs.

Context {imaging : Imaging} {lax : schema.Lax}.

Import schema llm.

Lemma image_to_base64_run (image : Image) (w : World) :
  utils.image_to_base64 image w
  = (Ok (base64.b64encode (png_file image)), encoded image w).
Proof.
  unfold utils.image_to_base64, bind, io.BytesIO, Image_save, io.write,
    io.getvalue, ret, encoded; cbn [buffers sent].
  rewrite lookup_app_r by lia.
  rewrite Nat.sub_diag; cbn [lookup list_lookup].
  rewrite insert_app_r_alt by lia.
  rewrite Nat.sub_diag; cbn [buffers sent insert list_insert app].
  rewrite lookup_app_r by lia.
  by rewrite Nat.sub_diag.
Qed.

Lemma legacy_image_to_base64_run (self : evaluator.GPTGraphicDesignEvaluator)
    (image : Image) (w : World) :
  evaluator._image_to_base64 self image w
  = (Ok (base64.b64encode (png_file image)), encoded image w).
Proof.
  exact (image_to_base64_run image w).
Qed.

Lemma replies_S (m : BaseChatModel) (k n : nat) (req : request) :
  replies m k (S n) req = generate m k req :: replies m (S k) n req.
Proof.
  unfold replies.
  cbn [seq map]. rewrite Nat.add_0_r. f_equal.
  rewrite <- seq_shift, map_map.
  apply map_ext; intros i. f_equal. lia.
Qed.

Lemma length_replies (m : BaseChatModel) (k n : nat) (req : request) :
  length (replies m k n req) = n.
Proof.
  unfold replies. by rewrite length_map, length_seq.
Qed.

Lemma lookup_replies (m : BaseChatModel) (k n i : nat) (req : request) :
  (i < n)%nat -> replies m k n req !! i = Some (generate m (k + i)%nat req).
Proof.
  intros Hi. unfold replies.
  change (map ?f ?l) with (f <$> l).
  rewrite list_lookup_fmap.
  by rewrite (lookup_seq_lt 0 n i Hi).
Qed.

Lemma dispatch_all_replicate (m : BaseChatModel) (s : json_schema)
    (msgs : list chat.message) (n : nat) (w : World) :
  chain.dispatch_all m s (replicate n msgs) w
  = (Ok (replies m (length (sent w)) n (Request msgs s)),
     mkWorld (buffers w) (sent w ++ replicate n (Request msgs s))).
Proof.
  revert w; induction n as [|n IH]; intros w.
  - destruct w; cbn. by rewrite app_nil_r.
  - cbn [replicate chain.dispatch_all]. unfold bind at 1.
    unfold chain.dispatch at 1.
    unfold bind at 1. rewrite IH. cbn [buffers sent ret].
    rewrite replies_S, length_app, Nat.add_1_r.
    by rewrite <- app_assoc.
Qed.

Lemma traverse_replicate_ok {A B} (f : A -> result B) (a : A) (b : B)
    (n : nat) :
  f a = Ok b -> chat.traverse f (replicate n a) = Ok (replicate n b).
Proof.
  intros Hf. induction n as [|n IH]; [done|].
  cbn. by rewrite Hf, IH.
Qed.

Lemma traverse_replicate_raise {A B} (f : A -> result B) (a : A) (e : exn)
    (n : nat) :
  f a = Raise e -> chat.traverse f (replicate (S n) a) = Raise e.
Proof.
  intros Hf. cbn. by rewrite Hf.
Qed.

Lemma traverse_length {A B} (f : A -> result B) (l : list A) (bs : list B) :
  chat.traverse f l = Ok bs -> length bs = length l.
Proof.
  revert bs; induction l as [|a l IH]; intros bs; cbn.
  - by intros [= <-].
  - destruct (f a); [|done]. destruct (chat.traverse f l); [|done].
    intros [= <-]. cbn. f_equal. by apply IH.
Qed.

Lemma traverse_lookup {A B} (f : A -> result B) (l : list A) (bs : list B)
    (i : nat) (b : B) :
  chat.traverse f l = Ok bs -> bs !! i = Some b ->
  exists a, l !! i = Some a /\ f a = Ok b.
Proof.
  revert bs i; induction l as [|a l IH]; intros bs i; cbn.
  - by intros [= <-].
  - destruct (f a) as [b0|] eqn:Ha; [|done].
    destruct (chat.traverse f l) as [bs0|]; [|done].
    intros [= <-]. destruct i as [|i]; cbn.
    + intros [= <-]. eauto.
    + intros Hb. by apply (IH bs0).
Qed.


Lemma traverse_raise {A B} (f : A -> result B) (l : list A) (a : A) :
  a ∈ l -> is_ok (f a) = false ->
  exists e a', a' ∈ l /\ f a' = Raise e /\ chat.traverse f l = Raise e.
Proof.
  induction l as [|a0 l IH]; intros Hin Hbad; [by inversion Hin|].
  cbn. destruct (f a0) as [b|e] eqn:Ha0.
  - apply elem_of_cons in Hin as [->|Hin]; [by rewrite Ha0 in Hbad|].
    destruct (IH Hin Hbad) as (e & a' & Ha' & Hf & ->).
    exists e, a'. split; [by right|done].
  - exists e, a0. split; [by left|done].
Qed.

End Runs.

Section Batches.

Context {imaging : Imaging} {lax : schema.Lax}.

Import schema llm.

Lemma batch_replicate {C} `{BaseModel C} (ch : chain.t C)
    (input : gmap string string) (msgs : list chat.message) (n : nat)
    (w : World) :
  chat.format_messages (chain.prompt ch) input = Ok msgs ->
  chain.batch ch (replicate n input) w
  = (batch_outcome
       (replies (chain.model ch) (length (sent w)) n
          (Request msgs (chain.schema_of C))),
     mkWorld (buffers w)
       (sent w ++ replicate n (Request msgs (chain.schema_of C)))).
Proof.
  intros Hfmt. destruct n as [|n].
  - destruct w; cbn. by rewrite app_nil_r.
  - unfold chain.batch. cbn [replicate].
    change (input :: replicate n input) with (replicate (S n) input).
    rewrite (traverse_replicate_ok _ _ _ _ Hfmt).
    unfold bind at 1, lift at 1.
    unfold bind at 1. rewrite dispatch_all_replicate.
    unfold bind, lift, batch_outcome.
    by destruct (chat.traverse chain.received _).
Qed.

Lemma batch_format_raise {C} `{BaseModel C} (ch : chain.t C)
    (input : gmap string string) (e : exn) (n : nat) (w : World) :
  chat.format_messages (chain.prompt ch) input = Raise e ->
  chain.batch ch (replicate (S n) input) w = (Raise e, w).
Proof.
  intros Hfmt. unfold chain.batch. cbn [replicate].
  change (input :: replicate n input) with (replicate (S n) input).
  by rewrite (traverse_replicate_raise _ _ _ _ Hfmt).
Qed.

Lemma invoke_run {C} `{BaseModel C} (ch : chain.t C)
    (input : gmap string string) (msgs : list chat.message) (w : World) :
  chat.format_messages (chain.prompt ch) input = Ok msgs ->
  chain.invoke ch input w
  = (chain.parse_reply
       (generate (chain.model ch) (length (sent w))
          (Request msgs (chain.schema_of C))),
     mkWorld (buffers w) (sent w ++ [Request msgs (chain.schema_of C)])).
Proof.
  intros Hfmt. unfold chain.invoke, bind, lift, chain.dispatch.
  rewrite Hfmt.
  by destruct (generate _ _ _).
Qed.

(** The body of the absolute [evaluate], step by step. *)
Lemma absolute_evaluate_run
    (self : absolute_evaluator.GPTGraphicDesignAbsoluteEvaluator)
    (image : Image) (p : string) (t : option string) (n : Z) (w : World) :
  absolute_evaluator.evaluate self image p t n w
  = match build_prompt
            (or_default t absolute_evaluator.DEFAULT_SYSTEM_PROMPT)
            absolute_evaluator.USER_PROMPT with
    | Raise e => (Raise e, w)
    | Ok prompt =>
        chain.batch
          (chain.pipe (C := absolute_evaluator.AbsoluteEvaluationResult)
             prompt (absolute_evaluator.llm self))
          (replicate (Z.to_nat n)
             (input_data p (base64.b64encode (png_file image))))
          (encoded image w)
    end.
Proof.
  unfold absolute_evaluator.evaluate, build_prompt.
  unfold bind at 1, lift at 1.
  destruct (chat.SystemMessagePromptTemplate_from_template _) as [sp|e];
    [|done].
  cbn [chat.bind_result].
  unfold bind at 1, lift at 1.
  destruct (chat.ChatPromptTemplate_from_messages _) as [prompt|e]; [|done].
  unfold bind at 1. by rewrite image_to_base64_run.
Qed.

(** The body of the legacy [evaluate], step by step. *)
Lemma legacy_evaluate_run (self : evaluator.GPTGraphicDesignEvaluator)
    (image : Image) (p : string) (t : option string) (w : World) :
  evaluator.evaluate self image p t w
  = match build_prompt (or_default t evaluator.SYSTEM_PROMPT)
            evaluator.USER_PROMPT with
    | Raise e => (Raise e, w)
    | Ok prompt =>
        chain.invoke
          (chain.pipe (C := evaluator.EvaluationResult)
             prompt (evaluator.llm self))
          (input_data p (base64.b64encode (png_file image)))
          (encoded image w)
    end.
Proof.
  unfold evaluator.evaluate, build_prompt.
  unfold bind at 1, lift at 1.
  destruct (chat.SystemMessagePromptTemplate_from_template _) as [sp|e];
    [|done].
  cbn [chat.bind_result].
  unfold bind at 1, lift at 1.
  destruct (chat.ChatPromptTemplate_from_messages _) as [prompt|e]; [|done].
  unfold bind at 1. by rewrite legacy_image_to_base64_run.
Qed.

(** The body of the relative [evaluate] stops at the reference to [image]. *)
Lemma relative_evaluate_run
    (self : relative_evaluator.GPTGraphicDesignRelativeEvaluator)
    (image_a image_b : Image) (p : string) (t : option string) (n : Z)
    (w : World) :
  relative_evaluator.evaluate self image_a image_b p t n w
  = match build_prompt
            (or_default t relative_evaluator.DEFAULT_SYSTEM_PROMPT)
            relative_evaluator.USER_PROMPT with
    | Raise e => (Raise e, w)
    | Ok _ => (Raise (NameError "image"), w)
    end.
Proof.
  unfold relative_evaluator.evaluate, build_prompt.
  unfold bind at 1, lift at 1.
  destruct (chat.SystemMessagePromptTemplate_from_template _) as [sp|e];
    [|done].
  cbn [chat.bind_result].
  unfold bind at 1, lift at 1.
  destruct (chat.ChatPromptTemplate_from_messages _) as [prompt|e]; [|done].
  unfold bind at 1, lift at 1.
  unfold load_name, relative_evaluator.images_in_scope.
  by rewrite !lookup_insert_ne, lookup_empty.
Qed.

End Batches.

(** ** The composed prompt *)

Lemma append_nil_r (s : string) : s +:+ EmptyString = s.
Proof.
  induction s as [|c s IH]; [done|].
  change (String c (s +:+ EmptyString) = String c s). by rewrite IH.
Qed.

(** A template of the plain fragment is one the library accepts, with the
    same segments. *)
Lemma parse_tokens (t : string) (segs : list fstring.segment) :
  fstring.parse t = Ok segs ->
  fstring.tokens t = Ok segs /\ forallb fstring.plain segs = true.
Proof.
  unfold fstring.parse.
  destruct (fstring.tokens t) as [segs'|e]; [|done].
  destruct (forallb fstring.plain segs') eqn:Hplain; [|done].
  by intros [= <-].
Qed.

(** The scanner on a few templates: a conversion, a format specification,
    an index and doubled braces are accepted; unbalanced braces are not. *)
Lemma tokens_examples :
  fstring.tokens "{x!r}" = Ok [fstring.Formatted "x" (Some "r"%char) EmptyString]
  /\ fstring.tokens "{x:>10}" = Ok [fstring.Formatted "x" None ">10"]
  /\ fstring.tokens "{x:{w}}" = Ok [fstring.Formatted "x" None "{w}"]
  /\ fstring.tokens "{x[0].y}" = Ok [fstring.Field "x[0].y"]
  /\ fstring.tokens "{}" = Ok [fstring.Field EmptyString]
  /\ fstring.tokens "a{{b}}{c}" = Ok [fstring.Lit "a{b}"; fstring.Field "c"]
  /\ fstring.tokens "{"
     = Raise (ValueError "Single '{' encountered in format string")
  /\ fstring.tokens "a}b"
     = Raise (ValueError "Single '}' encountered in format string")
  /\ fstring.tokens "{x"
     = Raise (ValueError "expected '}' before end of string")
  /\ fstring.tokens "{x{y}}"
     = Raise (ValueError "unexpected '{' in field name")
  /\ fstring.tokens "{x!rr}"
     = Raise (ValueError "expected ':' after conversion specifier")
  /\ fstring.tokens "{x:{y}"
     = Raise (ValueError "unmatched '{' in format spec").
Proof. vm_compute. repeat split. Qed.

Lemma image_url_parse :
  fstring.tokens "data:image/png;base64,{base64_image}"
  = Ok [fstring.Lit "data:image/png;base64,"; fstring.Field "base64_image"].
Proof. vm_compute. reflexivity. Qed.

Lemma build_prompt_raise (t user : string) (e : exn) :
  fstring.tokens t = Raise e -> build_prompt t user = Raise e.
Proof.
  intros Hp. unfold build_prompt, chat.SystemMessagePromptTemplate_from_template.
  by rewrite Hp.
Qed.

Lemma composed_messages_shape (t user p b : string) :
  fstring.tokens user = Ok [fstring.Lit user] ->
  composed_messages t user p b
  = fstring.fmap_result (two_messages user b) (system_text t p b).
Proof.
  intros Hu.
  unfold composed_messages, build_prompt, system_text,
    chat.SystemMessagePromptTemplate_from_template.
  destruct (fstring.tokens t) as [segs|e]; [|done].
  cbn [chat.bind_result chat.ChatPromptTemplate_from_messages chat.traverse
       chat.parse_message chat.parse_block].
  rewrite Hu, image_url_parse.
  cbn [fstring.fmap_result chat.bind_result chat.traverse].
  unfold chat.format_messages.
  cbn [chat.traverse]. unfold chat.format_message.
  cbn [chat.traverse chat.template_role chat.template_content].
  unfold chat.format_block at 1.
  destruct (fstring.format segs (input_data p b)) as [s|e]; [|done].
  unfold chat.format_block.
  cbn [fstring.fmap_result chat.bind_result fstring.format].
  unfold input_data at 1.
  rewrite lookup_insert_ne by done. rewrite lookup_insert_eq.
  cbn [fstring.fmap_result chat.bind_result].
  by rewrite !append_nil_r.
Qed.

Lemma absolute_user_prompt_parse :
  fstring.tokens absolute_evaluator.USER_PROMPT
  = Ok [fstring.Lit absolute_evaluator.USER_PROMPT].
Proof. vm_compute. reflexivity. Qed.

Lemma relative_user_prompt_parse :
  fstring.tokens relative_evaluator.USER_PROMPT
  = Ok [fstring.Lit relative_evaluator.USER_PROMPT].
Proof. vm_compute. reflexivity. Qed.

Lemma splice_system_text (t pre post p b : string) :
  fstring.tokens t
  = Ok [fstring.Lit pre; fstring.Field "design_principle"; fstring.Lit post] ->
  system_text t p b = Ok (pre +:+ p +:+ post).
Proof.
  intros Hp. unfold system_text. rewrite Hp.
  cbn [chat.bind_result fstring.format].
  unfold input_data. rewrite lookup_insert_eq.
  cbn [fstring.fmap_result fstring.format]. by rewrite append_nil_r.
Qed.

Lemma absolute_default_parse :
  exists pre post,
    fstring.tokens absolute_evaluator.DEFAULT_SYSTEM_PROMPT
    = Ok [fstring.Lit pre; fstring.Field "design_principle";
          fstring.Lit post].
Proof. vm_compute. eauto. Qed.

Lemma relative_default_parse :
  exists pre post,
    fstring.tokens relative_evaluator.DEFAULT_SYSTEM_PROMPT
    = Ok [fstring.Lit pre; fstring.Field "design_principle";
          fstring.Lit post].
Proof. vm_compute. eauto. Qed.

Lemma legacy_constants_agree :
  evaluator.SYSTEM_PROMPT = absolute_evaluator.DEFAULT_SYSTEM_PROMPT
  /\ evaluator.USER_PROMPT = absolute_evaluator.USER_PROMPT.
Proof. split; vm_compute; reflexivity. Qed.

(** With the default template the absolute evaluator's prompt always
    formats: the principle text is spliced into the system text and the
    payload into the image reference. *)
Lemma absolute_default_messages :
  exists pre post, forall p b,
    composed_messages absolute_evaluator.DEFAULT_SYSTEM_PROMPT
      absolute_evaluator.USER_PROMPT p b
    = Ok (two_messages absolute_evaluator.USER_PROMPT b (pre +:+ p +:+ post)).
Proof.
  destruct absolute_default_parse as (pre & post & Hp).
  exists pre, post. intros p b.
  rewrite composed_messages_shape by apply absolute_user_prompt_parse.
  by rewrite (splice_system_text _ _ _ _ _ Hp).
Qed.

(** ** The catalog's bindings *)

Lemma catalog_lookup_text (tag : string) :
  (tag ∈ prompts.DesignPrinciple ->
   exists text, prompts.DESIGN_PRINCIPLES !! tag = Some text)
  /\ (tag ∉ prompts.DesignPrinciple ->
      prompts.DESIGN_PRINCIPLES !! tag = None).
Proof.
  unfold prompts.DESIGN_PRINCIPLES, prompts.DesignPrinciple. split.
  - intros Htag. repeat (apply elem_of_cons in Htag as [->|Htag]).
    + rewrite lookup_insert_eq. eauto.
    + rewrite lookup_insert_ne by done. rewrite lookup_insert_eq. eauto.
    + rewrite !lookup_insert_ne by done. rewrite lookup_insert_eq. eauto.
    + by inversion Htag.
  - intros Htag.
    rewrite !lookup_insert_ne, lookup_empty; [done|..];
      intros <-; apply Htag; set_solver.
Qed.

(** ** Validation against the declared fields *)

Section Validation.

Context {lax : schema.Lax}.

Import schema.

Lemma int_field_inr (loc : string) (f : FieldInfo)
    (data : gmap string jvalue) (z : Z) :
  int_field loc f data = inr z
  <-> exists v, data !! loc = Some v /\ as_int v = Some z
        /\ (forall b, ge f = Some b -> b <= z)
        /\ (forall b, le f = Some b -> z <= b).
Proof.
  unfold int_field, check_ge, check_le. split.
  - destruct (data !! loc) as [v|]; [|done].
    destruct (as_int v) as [z'|] eqn:Hint; [|done].
    intros Hz. exists v.
    assert (z' = z /\ (forall b, ge f = Some b -> b <= z')
            /\ (forall b, le f = Some b -> z' <= b)) as (-> & ? & ?);
      [|by auto].
    destruct (ge f) as [lo|], (le f) as [hi|];
      repeat case_decide; cbn in Hz; try done;
      injection Hz as ->; (split; [done|split]); intros b Hb;
      by simplify_eq.
  - intros (v & -> & -> & Hge & Hle).
    destruct (ge f) as [lo|], (le f) as [hi|];
      repeat case_decide; cbn; try done.
    all: try (specialize (Hge _ eq_refl)); try (specialize (Hle _ eq_refl));
      lia.
Qed.

Lemma str_field_inr (loc : string) (data : gmap string jvalue) (s : string) :
  str_field loc data = inr s
  <-> exists v, data !! loc = Some v /\ as_str v = Some s.
Proof.
  unfold str_field. split.
  - destruct (data !! loc) as [v|]; [|done].
    destruct (as_str v) as [s'|] eqn:Hstr; [|done].
    intros [= ->]. eauto.
  - by intros (v & -> & ->).
Qed.

Lemma literal_field_inr (loc : string) (allowed : list string)
    (data : gmap string jvalue) (s : string) :
  literal_field loc allowed data = inr s
  <-> data !! loc = Some (JStr s) /\ s ∈ allowed.
Proof.
  unfold literal_field. split.
  - destruct (data !! loc) as [[| |z|s']|]; try done.
    case_decide; [|done]. by intros [= ->].
  - intros [-> Hin]. by rewrite decide_True.
Qed.

Lemma both_inr {A B} (a : checked A) (b : checked B) (x : A) (y : B) :
  both a b = inr (x, y) <-> a = inr x /\ b = inr y.
Proof.
  destruct a, b; cbn; split; try done; try (by intros [? ?]).
  - by intros [= -> ->].
  - by intros [[= ->] [= ->]].
Qed.

Lemma finish_ok {A B} (title : string) (build : A -> B) (c : checked A)
    (r : B) :
  finish title build c = Ok r <-> exists a, c = inr a /\ build a = r.
Proof.
  destruct c as [errs|a]; cbn; split; try done.
  - by intros (a & ? & _).
  - intros [= <-]. eauto.
  - by intros (a' & [= <-] & ->).
Qed.

Lemma finish_raise {A B} (title : string) (build : A -> B) (c : checked A)
    (e : exn) :
  finish title build c = Raise e ->
  exists errs, e = ValidationError title errs.
Proof.
  destruct c as [errs|a]; cbn; [|done]. intros [= <-]. eauto.
Qed.

Lemma absolute_validate_ok (data : gmap string jvalue)
    (r : absolute_evaluator.AbsoluteEvaluationResult) :
  model_validate data = Ok r
  <-> int_field "score" absolute_evaluator.score_field data
      = inr (absolute_evaluator.score r)
      /\ str_field "explanation" data
         = inr (absolute_evaluator.explanation r).
Proof.
  cbn [model_validate absolute_evaluator.AbsoluteEvaluationResult_model].
  rewrite finish_ok. split.
  - intros ([s e] & Hb & <-). by apply both_inr in Hb.
  - intros Hb. exists (absolute_evaluator.score r,
                       absolute_evaluator.explanation r).
    split; [by apply both_inr|by destruct r].
Qed.

Lemma legacy_validate_ok (data : gmap string jvalue)
    (r : evaluator.EvaluationResult) :
  model_validate data = Ok r
  <-> int_field "score" evaluator.score_field data = inr (evaluator.score r)
      /\ str_field "explanation" data = inr (evaluator.explanation r).
Proof.
  cbn [model_validate evaluator.EvaluationResult_model].
  rewrite finish_ok. split.
  - intros ([s e] & Hb & <-). by apply both_inr in Hb.
  - intros Hb. exists (evaluator.score r, evaluator.explanation r).
    split; [by apply both_inr|by destruct r].
Qed.

Lemma relative_validate_ok (data : gmap string jvalue)
    (r : relative_evaluator.RelativeEvaluationResult) :
  model_validate data = Ok r
  <-> literal_field "better_design" relative_evaluator.better_design_literal
        data = inr (relative_evaluator.better_design r)
      /\ str_field "explanation" data
         = inr (relative_evaluator.explanation r).
Proof.
  cbn [model_validate relative_evaluator.RelativeEvaluationResult_model].
  rewrite finish_ok. split.
  - intros ([s e] & Hb & <-). by apply both_inr in Hb.
  - intros Hb. exists (relative_evaluator.better_design r,
                       relative_evaluator.explanation r).
    split; [by apply both_inr|by destruct r].
Qed.

(** A validated absolute result carries a score within the declared range,
    read off the reply's own fields. *)
Lemma absolute_validate_inv (data : gmap string jvalue)
    (r : absolute_evaluator.AbsoluteEvaluationResult) :
  model_validate data = Ok r ->
  1 <= absolute_evaluator.score r <= 10
  /\ (forall z, data !! "score" = Some (JInt z) ->
                absolute_evaluator.score r = z)
  /\ (forall s, data !! "explanation" = Some (JStr s) ->
                absolute_evaluator.explanation r = s).
Proof.
  rewrite absolute_validate_ok, int_field_inr, str_field_inr.
  intros [(v & Hv & Hint & Hge & Hle) (v' & Hv' & Hstr)].
  split; [|split].
  - split; [by apply Hge|by apply Hle].
  - intros z Hz. rewrite Hz in Hv. injection Hv as <-.
    by injection Hint as ->.
  - intros s Hs. rewrite Hs in Hv'. injection Hv' as <-.
    by injection Hstr as ->.
Qed.

Lemma absolute_validate_raise (data : gmap string jvalue) (e : exn) :
  model_validate (C := absolute_evaluator.AbsoluteEvaluationResult) data
  = Raise e ->
  exists errs, e = ValidationError "AbsoluteEvaluationResult" errs.
Proof. apply finish_raise. Qed.

End Validation.

(** ** What a batch makes of its replies *)

Section Outcomes.

Context {lax : schema.Lax}.

Import schema llm.

Lemma traverse_received_ok (rs : list reply) :
  (forall r, r ∈ rs -> forall msg, r <> unreachable msg) ->
  chat.traverse chain.received rs = Ok rs.
Proof.
  induction rs as [|r rs IH]; intros Hall; [done|].
  cbn. rewrite IH by (intros r' Hr'; apply Hall; by right).
  specialize (Hall r (list_elem_of_here _ _)).
  destruct r; cbn; [by destruct (Hall msg)|done..].
Qed.

Lemma traverse_received_inv (rs rs' : list reply) :
  chat.traverse chain.received rs = Ok rs' ->
  rs' = rs /\ forall r, r ∈ rs -> forall msg, r <> unreachable msg.
Proof.
  revert rs'; induction rs as [|r rs IH]; intros rs'; cbn.
  - intros [= <-]. split; [done|]. intros r Hr. by inversion Hr.
  - destruct (chain.received r) as [r0|] eqn:Hr; [|done].
    destruct (chat.traverse chain.received rs) as [rs0|]; [|done].
    intros [= <-]. destruct (IH rs0 eq_refl) as [-> Hrs].
    assert (r0 = r /\ forall msg, r <> unreachable msg) as [-> Hne].
    { destruct r; cbn in Hr; [done|by injection Hr as <-..]. }
    split; [done|]. intros r' Hr'.
    apply elem_of_cons in Hr' as [->|Hr']; [done|by apply Hrs].
Qed.

Lemma batch_outcome_ok_inv {C} `{BaseModel C} (rs : list reply)
    (cs : list C) :
  batch_outcome rs = Ok cs ->
  length cs = length rs
  /\ forall i c, cs !! i = Some c ->
       exists r, rs !! i = Some r /\ chain.parse_reply r = Ok c.
Proof.
  unfold batch_outcome.
  destruct (chat.traverse chain.received rs) as [rs'|] eqn:Hrs; [|done].
  apply traverse_received_inv in Hrs as [-> _]. cbn.
  intros Hcs. split.
  - by apply traverse_length in Hcs.
  - intros i c Hc. by apply (traverse_lookup _ _ _ _ _ Hcs).
Qed.



Lemma batch_outcome_raise {C} `{BaseModel C} (rs : list reply) (r : reply) :
  r ∈ rs -> is_ok (chain.parse_reply (C := C) r) = false ->
  exists e,
    batch_outcome (C := C) rs = Raise e
    /\ ((forall r', r' ∈ rs -> forall msg, r' <> unreachable msg) ->
        exists r', r' ∈ rs /\ (forall msg, r' <> unreachable msg)
                   /\ chain.parse_reply (C := C) r' = Raise e).
Proof.
  intros Hin Hbad. unfold batch_outcome.
  destruct (chat.traverse chain.received rs) as [rs'|e] eqn:Hrs.
  - apply traverse_received_inv in Hrs as [-> Hne]. cbn.
    destruct (traverse_raise _ _ _ Hin Hbad) as (e & r' & Hr' & Hf & ->).
    exists e. split; [done|]. intros _. exists r'. auto.
  - exists e. split; [done|]. intros Hne.
    by rewrite (traverse_received_ok _ Hne) in Hrs.
Qed.

Lemma absolute_parse_violation (r : reply) :
  schema_violation r ->
  is_ok (chain.parse_reply
           (C := absolute_evaluator.AbsoluteEvaluationResult) r) = false.
Proof.
  destruct r as [msg|text|data]; cbn [schema_violation chain.parse_reply];
    [done|done|].
  intros Hbad.
  destruct (model_validate data) as [c|e] eqn:Hv; [|done].
  exfalso.
  pose proof (absolute_validate_inv _ _ Hv) as (Hrange & Hscore & _).
  apply absolute_validate_ok in Hv as [Hs He].
  apply int_field_inr in Hs as (v & Hv & _).
  apply str_field_inr in He as (v' & Hv' & _).
  destruct Hbad as [Hbad|[Hbad|(z & Hz & Hout)]].
  - by rewrite Hbad in Hv.
  - by rewrite Hbad in Hv'.
  - rewrite <- (Hscore z Hz) in Hout. by apply Hout.
Qed.

Lemma absolute_parse_raise_kind (r : reply) (e : exn) :
  chain.parse_reply (C := absolute_evaluator.AbsoluteEvaluationResult) r
  = Raise e ->
  (forall msg, r <> unreachable msg) ->
  is_validation_failure e = true.
Proof.
  destruct r as [msg|text|data]; cbn [chain.parse_reply]; intros He Hne.
  - by destruct (Hne msg).
  - by injection He as <-.
  - by apply absolute_validate_raise in He as [errs ->].
Qed.

End Outcomes.

(** * Properties stated by the specification *)

(** ** Prompt catalog *)

(** C6: each of the three principle tags alignment, overlap and whitespace
    is bound in [DESIGN_PRINCIPLES] to a non-empty instruction text, and
    subscripting the catalog with any other tag raises the lookup error
    [KeyError]. *)
Theorem catalog_lookup (tag : string) :
  (tag ∈ prompts.DesignPrinciple ->
   exists text, getitem prompts.DESIGN_PRINCIPLES tag = Ok text
                /\ text <> EmptyString
                /\ (0 < String.length text)%nat)
  /\ (tag ∉ prompts.DesignPrinciple ->
      getitem prompts.DESIGN_PRINCIPLES tag = Raise (KeyError tag)).
Proof.
  unfold getitem, prompts.DESIGN_PRINCIPLES, prompts.DesignPrinciple. split.
  - intros Htag. repeat (apply elem_of_cons in Htag as [->|Htag]).
    + rewrite lookup_insert_eq. eexists; split; [done|].
      by vm_compute; split; [|lia].
    + rewrite lookup_insert_ne by done. rewrite lookup_insert_eq.
      eexists; split; [done|]. by vm_compute; split; [|lia].
    + rewrite !lookup_insert_ne by done. rewrite lookup_insert_eq.
      eexists; split; [done|]. by vm_compute; split; [|lia].
    + by inversion Htag.
  - intros Htag.
    rewrite !lookup_insert_ne, lookup_empty; [done|..];
      intros <-; apply Htag; set_solver.
Qed.


(** ** Result schemas *)

Section Schemas.

Context {lax : schema.Lax}.

Import schema.

Lemma absolute_init_run (s : Z) (e : string) :
  (1 <= s <= 10 ->
   AbsoluteEvaluationResult_init s e
   = Ok (absolute_evaluator.Build_AbsoluteEvaluationResult s e))
  /\ (~ (1 <= s <= 10) ->
      exists errs,
        AbsoluteEvaluationResult_init s e
        = Raise (ValidationError "AbsoluteEvaluationResult" errs)).
Proof.
  unfold AbsoluteEvaluationResult_init.
  cbn [model_validate absolute_evaluator.AbsoluteEvaluationResult_model].
  unfold int_field, str_field.
  rewrite lookup_insert_eq.
  rewrite lookup_insert_ne by done. rewrite lookup_insert_eq.
  cbn [as_int as_str]. unfold check_ge, check_le.
  cbn [ge le absolute_evaluator.score_field].
  split; intros Hs; repeat case_decide; cbn; try done; try lia; eauto.
Qed.

Lemma legacy_init_run (s : Z) (e : string) :
  (1 <= s <= 10 ->
   EvaluationResult_init s e = Ok (evaluator.Build_EvaluationResult s e))
  /\ (~ (1 <= s <= 10) ->
      exists errs,
        EvaluationResult_init s e
        = Raise (ValidationError "EvaluationResult" errs)).
Proof.
  unfold EvaluationResult_init.
  cbn [model_validate evaluator.EvaluationResult_model].
  unfold int_field, str_field.
  rewrite lookup_insert_eq.
  rewrite lookup_insert_ne by done. rewrite lookup_insert_eq.
  cbn [as_int as_str]. unfold check_ge, check_le.
  cbn [ge le evaluator.score_field].
  split; intros Hs; repeat case_decide; cbn; try done; try lia; eauto.
Qed.

(** C3: building an absolute evaluation result, of either class
    ([AbsoluteEvaluationResult] or the legacy [EvaluationResult]), from an
    integer score [s] and an explanation string succeeds if and only if
    [1 <= s <= 10], and then holds exactly that score and explanation;
    outside the range it raises a validation error.  In particular the
    scores 0 and 11 fail and the scores 1 and 10 succeed. *)
Theorem score_range_construction (s : Z) (e : string) :
  ((exists r, AbsoluteEvaluationResult_init s e = Ok r) <-> 1 <= s <= 10)
  /\ ((exists r, EvaluationResult_init s e = Ok r) <-> 1 <= s <= 10)
  /\ (forall r, AbsoluteEvaluationResult_init s e = Ok r ->
        absolute_evaluator.score r = s
        /\ absolute_evaluator.explanation r = e)
  /\ (forall r, EvaluationResult_init s e = Ok r ->
        evaluator.score r = s /\ evaluator.explanation r = e)
  /\ (forall x, AbsoluteEvaluationResult_init s e = Raise x ->
        is_validation_failure x = true)
  /\ (forall x, EvaluationResult_init s e = Raise x ->
        is_validation_failure x = true)
  /\ is_ok (AbsoluteEvaluationResult_init 0 e) = false
  /\ is_ok (AbsoluteEvaluationResult_init 11 e) = false
  /\ is_ok (AbsoluteEvaluationResult_init 1 e) = true
  /\ is_ok (AbsoluteEvaluationResult_init 10 e) = true
  /\ is_ok (EvaluationResult_init 0 e) = false
  /\ is_ok (EvaluationResult_init 11 e) = false
  /\ is_ok (EvaluationResult_init 1 e) = true
  /\ is_ok (EvaluationResult_init 10 e) = true.
Proof.
  assert (Ha : forall z, is_ok (AbsoluteEvaluationResult_init z e)
                         = bool_decide (1 <= z <= 10)).
  { intros z. destruct (absolute_init_run z e) as [Hin Hout].
    case_bool_decide as Hz; [by rewrite Hin|].
    by destruct (Hout Hz) as [errs ->]. }
  assert (Hl : forall z, is_ok (EvaluationResult_init z e)
                         = bool_decide (1 <= z <= 10)).
  { intros z. destruct (legacy_init_run z e) as [Hin Hout].
    case_bool_decide as Hz; [by rewrite Hin|].
    by destruct (Hout Hz) as [errs ->]. }
  destruct (absolute_init_run s e) as [Hain Haout].
  destruct (legacy_init_run s e) as [Hlin Hlout].
  split; [|split; [|split; [|split; [|split; [|split]]]]].
  - split.
    + intros [r Hr]. specialize (Ha s). rewrite Hr in Ha.
      symmetry in Ha. by apply bool_decide_eq_true in Ha.
    + intros Hs. rewrite (Hain Hs). eauto.
  - split.
    + intros [r Hr]. specialize (Hl s). rewrite Hr in Hl.
      symmetry in Hl. by apply bool_decide_eq_true in Hl.
    + intros Hs. rewrite (Hlin Hs). eauto.
  - intros r Hr. destruct (decide (1 <= s <= 10)) as [Hs|Hs].
    + rewrite (Hain Hs) in Hr. by injection Hr as <-.
    + destruct (Haout Hs) as [errs He]. by rewrite He in Hr.
  - intros r Hr. destruct (decide (1 <= s <= 10)) as [Hs|Hs].
    + rewrite (Hlin Hs) in Hr. by injection Hr as <-.
    + destruct (Hlout Hs) as [errs He]. by rewrite He in Hr.
  - intros x Hx. destruct (decide (1 <= s <= 10)) as [Hs|Hs].
    + by rewrite (Hain Hs) in Hx.
    + destruct (Haout Hs) as [errs He]. rewrite He in Hx.
      by injection Hx as <-.
  - intros x Hx. destruct (decide (1 <= s <= 10)) as [Hs|Hs].
    + by rewrite (Hlin Hs) in Hx.
    + destruct (Hlout Hs) as [errs He]. rewrite He in Hx.
      by injection Hx as <-.
  - by rewrite !Ha, !Hl.
Qed.

Lemma relative_init_run (b e : string) :
  (b ∈ relative_evaluator.better_design_literal ->
   RelativeEvaluationResult_init b e
   = Ok (relative_evaluator.Build_RelativeEvaluationResult b e))
  /\ (b ∉ relative_evaluator.better_design_literal ->
      exists errs,
        RelativeEvaluationResult_init b e
        = Raise (ValidationError "RelativeEvaluationResult" errs)).
Proof.
  unfold RelativeEvaluationResult_init.
  cbn [model_validate relative_evaluator.RelativeEvaluationResult_model].
  unfold literal_field, str_field.
  rewrite lookup_insert_eq.
  rewrite lookup_insert_ne by done. rewrite lookup_insert_eq.
  cbn [as_str].
  split; intros Hb; case_decide; cbn; try done; eauto.
Qed.

(** C4: building a [RelativeEvaluationResult] from a preference string and
    an explanation succeeds if and only if the string is one of the five
    declared tags none, small, medium, large and both; any other string,
    the side labels a and b included, raises a validation error. *)
Theorem preference_tag_construction (b e : string) :
  ((exists r, RelativeEvaluationResult_init b e = Ok r)
   <-> b ∈ ["none"; "small"; "medium"; "large"; "both"])
  /\ (forall r, RelativeEvaluationResult_init b e = Ok r ->
        relative_evaluator.better_design r = b
        /\ relative_evaluator.explanation r = e)
  /\ (forall x, RelativeEvaluationResult_init b e = Raise x ->
        is_validation_failure x = true)
  /\ is_ok (RelativeEvaluationResult_init "a" e) = false
  /\ is_ok (RelativeEvaluationResult_init "b" e) = false.
Proof.
  change ["none"; "small"; "medium"; "large"; "both"]
    with relative_evaluator.better_design_literal.
  assert (Hside : forall x, x ∉ relative_evaluator.better_design_literal ->
            is_ok (RelativeEvaluationResult_init x e) = false).
  { intros x Hx. by destruct (proj2 (relative_init_run x e) Hx) as [? ->]. }
  split; [|split; [|split; [|split]]].
  - destruct (decide (b ∈ relative_evaluator.better_design_literal))
      as [Hb|Hb].
    + rewrite (proj1 (relative_init_run b e) Hb). split; eauto.
    + destruct (proj2 (relative_init_run b e) Hb) as [errs ->].
      split; [by intros [? ?]|done].
  - destruct (decide (b ∈ relative_evaluator.better_design_literal))
      as [Hb|Hb].
    + rewrite (proj1 (relative_init_run b e) Hb). by intros r [= <-].
    + by destruct (proj2 (relative_init_run b e) Hb) as [errs ->].
  - destruct (decide (b ∈ relative_evaluator.better_design_literal))
      as [Hb|Hb].
    + by rewrite (proj1 (relative_init_run b e) Hb).
    + destruct (proj2 (relative_init_run b e) Hb) as [errs ->].
      by intros x [= <-].
  - apply Hside. apply (bool_decide_unpack _). vm_compute. exact I.
  - apply Hside. apply (bool_decide_unpack _). vm_compute. exact I.
Qed.

End Schemas.

(** ** Image encoder *)

(** C8: the image encoder is deterministic.  Whatever the state of the
    world it runs in, [image_to_base64] returns for one bitmap the same
    string, the base64 text of its PNG bytes; in particular encoding a
    bitmap a second time, in the world the first encoding left behind,
    returns the identical string. *)
Theorem image_to_base64_deterministic {imaging : Imaging} (image : Image)
    (w1 w2 : World) :
  fst (utils.image_to_base64 image w1) = fst (utils.image_to_base64 image w2)
  /\ fst (utils.image_to_base64 image w1)
     = Ok (base64.b64encode (png_file image))
  /\ fst (utils.image_to_base64 image
            (snd (utils.image_to_base64 image w1)))
     = fst (utils.image_to_base64 image w1).
Proof.
  by rewrite !image_to_base64_run.
Qed.

(** ** Convenience operations *)

Lemma absolute_default_is_truthy :
  or_default (Some absolute_evaluator.DEFAULT_SYSTEM_PROMPT)
    absolute_evaluator.DEFAULT_SYSTEM_PROMPT
  = or_default None absolute_evaluator.DEFAULT_SYSTEM_PROMPT.
Proof. vm_compute. reflexivity. Qed.

Lemma relative_default_is_truthy :
  or_default (Some relative_evaluator.DEFAULT_SYSTEM_PROMPT)
    relative_evaluator.DEFAULT_SYSTEM_PROMPT
  = or_default None relative_evaluator.DEFAULT_SYSTEM_PROMPT.
Proof. vm_compute. reflexivity. Qed.

(** C9: for every image, every valid design-principle tag and every
    [num_return], the absolute evaluator's [__call__] is its [evaluate]
    applied to the catalog text [DESIGN_PRINCIPLES[tag]] and the component's
    default system-prompt template, passed explicitly or left out; the
    relative evaluator's [__call__] forwards to its [evaluate] in the same
    way. *)
Theorem call_forwards_to_evaluate {imaging : Imaging} {lax : schema.Lax}
    (self : absolute_evaluator.GPTGraphicDesignAbsoluteEvaluator)
    (self' : relative_evaluator.GPTGraphicDesignRelativeEvaluator)
    (image image_a image_b : Image) (tag : string) (num_return : Z) :
  tag ∈ prompts.DesignPrinciple ->
  exists text,
    prompts.DESIGN_PRINCIPLES !! tag = Some text
    /\ absolute_evaluator.__call__ self image tag num_return
       = absolute_evaluator.evaluate self image text
           (Some absolute_evaluator.DEFAULT_SYSTEM_PROMPT) num_return
    /\ absolute_evaluator.__call__ self image tag num_return
       = absolute_evaluator.evaluate self image text None num_return
    /\ relative_evaluator.__call__ self' image_a image_b tag num_return
       = relative_evaluator.evaluate self' image_a image_b text
           (Some relative_evaluator.DEFAULT_SYSTEM_PROMPT) num_return
    /\ relative_evaluator.__call__ self' image_a image_b tag num_return
       = relative_evaluator.evaluate self' image_a image_b text None
           num_return.
Proof.
  intros Htag.
  destruct (proj1 (catalog_lookup_text tag) Htag) as (text & Hget).
  exists text. split; [done|].
  unfold absolute_evaluator.__call__, relative_evaluator.__call__, getitem.
  rewrite Hget.
  split; [reflexivity|]. split.
  - unfold absolute_evaluator.evaluate. cbv zeta.
    by rewrite absolute_default_is_truthy.
  - split; [reflexivity|].
    unfold relative_evaluator.evaluate. cbv zeta.
    by rewrite relative_default_is_truthy.
Qed.


(** ** Absolute evaluator *)

Section Absolute.

Context {imaging : Imaging} {lax : schema.Lax}.

Import schema llm.

Local Abbreviation Result := absolute_evaluator.AbsoluteEvaluationResult.

(** With the default template the absolute [evaluate] encodes the image,
    sends as many copies of one request as [num_return] says and returns
    what the batch makes of the replies. *)
Lemma absolute_default_run
    (self : absolute_evaluator.GPTGraphicDesignAbsoluteEvaluator)
    (image : Image) (p : string) (n : Z) (w : World) :
  exists msgs,
    composed_messages absolute_evaluator.DEFAULT_SYSTEM_PROMPT
      absolute_evaluator.USER_PROMPT p (base64.b64encode (png_file image))
    = Ok msgs
    /\ absolute_evaluator.evaluate self image p None n w
       = (batch_outcome (C := Result)
            (replies (absolute_evaluator.llm self) (length (sent w))
               (Z.to_nat n) (Request msgs (chain.schema_of Result))),
          mkWorld (buffers w ++ [png_file image])
            (sent w
             ++ replicate (Z.to_nat n)
                  (Request msgs (chain.schema_of Result)))).
Proof.
  destruct absolute_default_messages as (pre & post & Hm).
  specialize (Hm p (base64.b64encode (png_file image))).
  eexists. split; [exact Hm|].
  rewrite absolute_evaluate_run. cbn [or_default].
  unfold composed_messages in Hm.
  destruct (build_prompt _ _) as [prompt|e]; [|done].
  cbn [chat.bind_result] in Hm.
  by rewrite (batch_replicate (C := Result)
                (chain.pipe prompt (absolute_evaluator.llm self))
                _ _ _ _ Hm).
Qed.



(** C7: when a reply of the model breaks the result schema (an integer
    score outside 1..10 such as 99, a missing field, or text that is no JSON
    object), the absolute [evaluate] raises, and unless the transport itself
    failed for one of the samples what it raises is a validation failure.
    A list it does return holds one result per requested sample, each with
    a score within 1..10 that is the very score its reply carried: no score
    is clamped into range and no sample is dropped. *)
Theorem absolute_evaluate_surfaces_violation
    (self : absolute_evaluator.GPTGraphicDesignAbsoluteEvaluator)
    (image : Image) (p : string) (n : Z) (w : World) :
  exists req : request,
    let out := absolute_evaluator.evaluate self image p None n w in
    let reply (i : nat) :=
      generate (absolute_evaluator.llm self) (length (sent w) + i)%nat req in
    sent (snd out) = sent w ++ replicate (Z.to_nat n) req
    /\ (forall i, (i < Z.to_nat n)%nat -> schema_violation (reply i) ->
          exists e,
            fst out = Raise e
            /\ ((forall j msg, (j < Z.to_nat n)%nat ->
                               reply j <> unreachable msg) ->
                is_validation_failure e = true))
    /\ (forall rs, fst out = Ok rs ->
          length rs = Z.to_nat n
          /\ forall i r, rs !! i = Some r ->
               1 <= absolute_evaluator.score r <= 10
               /\ exists data,
                    reply i = json_object data
                    /\ model_validate data = Ok r
                    /\ (forall z, data !! "score" = Some (JInt z) ->
                                  absolute_evaluator.score r = z)
                    /\ (forall s, data !! "explanation" = Some (JStr s) ->
                                  absolute_evaluator.explanation r = s)).
Proof.
  destruct (absolute_default_run self image p n w) as (msgs & _ & Hrun).
  set (req := Request msgs (chain.schema_of Result)) in *.
  exists req. cbv zeta. rewrite Hrun. cbn [fst snd sent].
  split; [done|]. split.
  - intros i Hi Hbad.
    destruct (batch_outcome_raise (C := Result)
                (replies (absolute_evaluator.llm self) (length (sent w))
                   (Z.to_nat n) req)
                (generate (absolute_evaluator.llm self)
                   (length (sent w) + i)%nat req))
      as (e & He & Hkind).
    { apply list_elem_of_lookup. exists i. by apply lookup_replies. }
    { by apply absolute_parse_violation. }
    exists e. split; [done|]. intros Hne.
    destruct Hkind as (r' & Hr' & Hne' & Hparse).
    { intros r' (j & Hj)%list_elem_of_lookup msg.
      assert (j < Z.to_nat n)%nat as Hlt.
      { apply lookup_lt_Some in Hj. by rewrite length_replies in Hj. }
      rewrite lookup_replies in Hj by done. injection Hj as <-.
      by apply Hne. }
    by apply (absolute_parse_raise_kind r' e).
  - intros rs Hrs. apply batch_outcome_ok_inv in Hrs as [Hlen Hrs].
    split; [by rewrite Hlen, length_replies|].
    intros i r Hr. destruct (Hrs i r Hr) as (rep & Hrep & Hparse).
    assert (i < Z.to_nat n)%nat as Hlt.
    { apply lookup_lt_Some in Hrep. by rewrite length_replies in Hrep. }
    rewrite lookup_replies in Hrep by done. injection Hrep as <-.
    destruct (generate _ _ _) as [msg|text|data]; [done|done|].
    cbn [chain.parse_reply] in Hparse.
    destruct (absolute_validate_inv _ _ Hparse) as (Hrange & Hscore & Hexp).
    split; [done|]. by exists data.
Qed.

End Absolute.

(** ** Legacy evaluator *)

Section Legacy.

Context {imaging : Imaging} {lax : schema.Lax}.

Import schema llm.

Local Abbreviation Old := evaluator.EvaluationResult.
Local Abbreviation New := absolute_evaluator.AbsoluteEvaluationResult.

Lemma invoke_format_raise {C} `{BaseModel C} (ch : chain.t C)
    (input : gmap string string) (e : exn) (w : World) :
  chat.format_messages (chain.prompt ch) input = Raise e ->
  chain.invoke ch input w = (Raise e, w).
Proof.
  intros Hfmt. unfold chain.invoke, bind, lift. by rewrite Hfmt.
Qed.

Lemma same_failure_refl (e : exn) : same_failure e e.
Proof. by destruct e. Qed.

(** The two result classes validate a JSON object alike. *)
Lemma validate_agree (data : gmap string jvalue) :
  match model_validate (C := Old) data, model_validate (C := New) data with
  | Ok r, Ok r' =>
      evaluator.score r = absolute_evaluator.score r'
      /\ evaluator.explanation r = absolute_evaluator.explanation r'
  | Raise e, Raise e' => same_failure e e'
  | _, _ => False
  end.
Proof.
  cbn [model_validate evaluator.EvaluationResult_model
       absolute_evaluator.AbsoluteEvaluationResult_model].
  change absolute_evaluator.score_field with evaluator.score_field.
  by destruct (both _ _) as [errs|[s e]].
Qed.

Lemma parse_agree (r : reply) :
  match chain.parse_reply (C := Old) r,
        batch_outcome (C := New) [r] with
  | Ok c, Ok [c'] =>
      evaluator.score c = absolute_evaluator.score c'
      /\ evaluator.explanation c = absolute_evaluator.explanation c'
  | Raise e, Raise e' => same_failure e e'
  | _, _ => False
  end.
Proof.
  destruct r as [msg|text|data]; [done|done|].
  unfold batch_outcome.
  cbn [chat.traverse chain.received chat.bind_result chain.parse_reply].
  pose proof (validate_agree data) as Hv.
  destruct (model_validate (C := Old) data),
           (model_validate (C := New) data); done.
Qed.

(** C10: for the same model behaviour, image, design-principle prompt and
    system-prompt template, the legacy [evaluate] returns a result with the
    score and the explanation of the single element of the list that the
    absolute [evaluate] returns for [num_return = 1], and fails when that
    one fails, with the same failure up to the class name in a validation
    report.  Both encode the image alike, send the same system and user
    messages, and validate against schemas with the same fields and
    constraints. *)
Theorem legacy_agrees_with_absolute
    (legacy : evaluator.GPTGraphicDesignEvaluator)
    (self : absolute_evaluator.GPTGraphicDesignAbsoluteEvaluator)
    (image : Image) (p : string) (t : option string) (w : World) :
  (forall k msgs,
     generate (evaluator.llm legacy) k (Request msgs (chain.schema_of Old))
     = generate (absolute_evaluator.llm self) k
         (Request msgs (chain.schema_of New))) ->
  let old := evaluator.evaluate legacy image p t w in
  let new := absolute_evaluator.evaluate self image p t 1 w in
  match fst old, fst new with
  | Ok r, Ok [r'] =>
      evaluator.score r = absolute_evaluator.score r'
      /\ evaluator.explanation r = absolute_evaluator.explanation r'
  | Raise e, Raise e' => same_failure e e'
  | _, _ => False
  end
  /\ buffers (snd old) = buffers (snd new)
  /\ map messages (sent (snd old)) = map messages (sent (snd new))
  /\ evaluator._image_to_base64 legacy image w = utils.image_to_base64 image w
  /\ schema_properties (chain.schema_of Old)
     = schema_properties (chain.schema_of New)
  /\ evaluator.SYSTEM_PROMPT = absolute_evaluator.DEFAULT_SYSTEM_PROMPT
  /\ evaluator.USER_PROMPT = absolute_evaluator.USER_PROMPT.
Proof.
  intros Hsame. cbv zeta.
  destruct legacy_constants_agree as [Hsys Huser].
  rewrite legacy_evaluate_run, absolute_evaluate_run.
  rewrite legacy_image_to_base64_run, image_to_base64_run.
  rewrite Hsys, Huser.
  split; [|split; [|split; [|split; [done|split; [done|done]]]]];
    destruct (build_prompt _ _) as [prompt|e];
    try done; try apply same_failure_refl.
  - change (Z.to_nat 1) with 1%nat.
    destruct (chat.format_messages prompt
                (input_data p (base64.b64encode (png_file image))))
      as [msgs|e] eqn:Hfmt.
    + rewrite (invoke_run (C := Old)
                 (chain.pipe prompt (evaluator.llm legacy)) _ _ _ Hfmt).
      rewrite (batch_replicate (C := New)
                 (chain.pipe prompt (absolute_evaluator.llm self))
                 _ _ 1 _ Hfmt).
      cbn [fst chain.model]. rewrite replies_S. unfold replies at 1.
      cbn [seq map]. rewrite Hsame. apply parse_agree.
    + rewrite (invoke_format_raise (C := Old)
                 (chain.pipe prompt (evaluator.llm legacy)) _ _ _ Hfmt).
      rewrite (batch_format_raise (C := New)
                 (chain.pipe prompt (absolute_evaluator.llm self))
                 _ _ 0 _ Hfmt).
      apply same_failure_refl.
  - change (Z.to_nat 1) with 1%nat.
    destruct (chat.format_messages prompt
                (input_data p (base64.b64encode (png_file image))))
      as [msgs|e] eqn:Hfmt.
    + rewrite (invoke_run (C := Old)
                 (chain.pipe prompt (evaluator.llm legacy)) _ _ _ Hfmt).
      by rewrite (batch_replicate (C := New)
                    (chain.pipe prompt (absolute_evaluator.llm self))
                    _ _ 1 _ Hfmt).
    + rewrite (invoke_format_raise (C := Old)
                 (chain.pipe prompt (evaluator.llm legacy)) _ _ _ Hfmt).
      by rewrite (batch_format_raise (C := New)
                    (chain.pipe prompt (absolute_evaluator.llm self))
                    _ _ 0 _ Hfmt).
  - change (Z.to_nat 1) with 1%nat.
    destruct (chat.format_messages prompt
                (input_data p (base64.b64encode (png_file image))))
      as [msgs|e] eqn:Hfmt.
    + rewrite (invoke_run (C := Old)
                 (chain.pipe prompt (evaluator.llm legacy)) _ _ _ Hfmt).
      rewrite (batch_replicate (C := New)
                 (chain.pipe prompt (absolute_evaluator.llm self))
                 _ _ 1 _ Hfmt).
      cbn [snd sent replicate]. by rewrite !map_app.
    + rewrite (invoke_format_raise (C := Old)
                 (chain.pipe prompt (evaluator.llm legacy)) _ _ _ Hfmt).
      by rewrite (batch_format_raise (C := New)
                    (chain.pipe prompt (absolute_evaluator.llm self))
                    _ _ 0 _ Hfmt).
Qed.

End Legacy.

(** ** Relative evaluator *)

Section Relative.

Context {imaging : Imaging} {lax : schema.Lax}.

Import schema llm.


Lemma fmap_result_raise {A B} (f : A -> B) (r : result A) (e : exn) :
  fstring.fmap_result f r = Raise e -> r = Raise e.
Proof. destruct r; cbn; [done|by intros [= ->]]. Qed.

(** Whatever the scanner raises is a [ValueError]. *)
Lemma scan_raise_bounded (n : nat) (s : string) (st : fstring.state)
    (e : exn) :
  (String.length s <= n)%nat ->
  fstring.scan st s = Raise e -> exists msg, e = ValueError msg.
Proof.
  revert s st. induction n as [|n IH]; intros s st Hlen.
  - destruct s; [|cbn in Hlen; lia].
    destruct st; cbn; try done; intros [= <-]; eauto.
  - destruct s as [|c s].
    { destruct st; cbn; try done; intros [= <-]; eauto. }
    cbn in Hlen.
    destruct st as [|name|name|name|name conv|name conv spec depth];
      cbn [fstring.scan].
    all: repeat match goal with
           | |- context [if ?b then _ else _] => destruct b
           | |- context [match ?x with
                         | EmptyString => _
                         | String _ _ => _
                         end] => destruct x
           | |- context [match ?d with O => _ | S _ => _ end] => destruct d
           end.
    all: try (intros [= <-]; eauto; fail).
    all: try (intros Hr%fmap_result_raise; revert Hr).
    all: apply IH; cbn in *; lia.
Qed.

Lemma tokens_raise (t : string) (e : exn) :
  fstring.tokens t = Raise e -> exists msg, e = ValueError msg.
Proof. apply (scan_raise_bounded (String.length t)). lia. Qed.


(** The prompt the relative evaluator builds has room for one image only:
    whatever it is formatted with, the messages carry a single image
    reference, to the payload bound to [base64_image]. *)
Lemma relative_prompt_single_image (p b : string) :
  exists msgs,
    composed_messages relative_evaluator.DEFAULT_SYSTEM_PROMPT
      relative_evaluator.USER_PROMPT p b = Ok msgs
    /\ concat (map chat.image_urls msgs) = ["data:image/png;base64," +:+ b].
Proof.
  destruct relative_default_parse as (pre & post & Hp).
  rewrite composed_messages_shape by apply relative_user_prompt_parse.
  rewrite (splice_system_text _ _ _ _ _ Hp).
  eexists. split; [reflexivity|]. reflexivity.
Qed.

End Relative.

(** * Further properties of the code *)

(** ** Templates with placeholders of their own *)

Lemma format_ok (segs : list fstring.segment) (kwargs : gmap string string) :
  forallb fstring.plain segs = true ->
  (forall name, name ∈ fstring.input_variables segs ->
                is_Some (kwargs !! name)) ->
  exists s, fstring.format segs kwargs = Ok s.
Proof.
  induction segs as [|[text|name|name conv spec] segs IH];
    intros Hplain Hall; cbn in *.
  - eauto.
  - destruct IH as [s ->]; [done..|]. cbn. eauto.
  - apply andb_prop in Hplain as [_ Hplain].
    destruct (Hall name) as [v ->]; [by left|].
    destruct IH as [s ->]; [done| |cbn; eauto].
    intros name' Hin. apply Hall. by right.
  - done.
Qed.


Lemma input_data_lookup (p b name : string) :
  is_Some (input_data p b !! name)
  <-> name = "design_principle" \/ name = "base64_image".
Proof.
  unfold input_data. split.
  - intros [v Hv].
    destruct (decide (name = "design_principle")) as [|Hne1]; [by left|].
    destruct (decide (name = "base64_image")) as [|Hne2]; [by right|].
    by rewrite !lookup_insert_ne, lookup_empty in Hv.
  - intros [->| ->].
    + rewrite lookup_insert_eq. eauto.
    + rewrite lookup_insert_ne by done. rewrite lookup_insert_eq. eauto.
Qed.

Lemma prompt_builds (t user : string) (segs : list fstring.segment) :
  fstring.tokens t = Ok segs ->
  fstring.tokens user = Ok [fstring.Lit user] ->
  exists prompt, build_prompt t user = Ok prompt.
Proof.
  intros Hp Hu.
  unfold build_prompt, chat.SystemMessagePromptTemplate_from_template.
  rewrite Hp.
  cbn [chat.bind_result chat.ChatPromptTemplate_from_messages chat.traverse
       chat.parse_message chat.parse_block].
  rewrite Hu, image_url_parse.
  cbn [fstring.fmap_result chat.bind_result chat.traverse]. eauto.
Qed.

Lemma legacy_user_prompt_parse :
  fstring.tokens evaluator.USER_PROMPT
  = Ok [fstring.Lit evaluator.USER_PROMPT].
Proof. vm_compute. reflexivity. Qed.

Lemma legacy_default_parse :
  exists pre post,
    fstring.tokens evaluator.SYSTEM_PROMPT
    = Ok [fstring.Lit pre; fstring.Field "design_principle";
          fstring.Lit post].
Proof. vm_compute. eauto. Qed.

Lemma legacy_catalog_agrees :
  evaluator.DESIGN_PRINCIPLES = prompts.DESIGN_PRINCIPLES.
Proof.
  unfold evaluator.DESIGN_PRINCIPLES, prompts.DESIGN_PRINCIPLES.
  repeat f_equal; vm_compute; reflexivity.
Qed.

Section CustomTemplates.

Context {imaging : Imaging} {lax : schema.Lax}.

Import schema llm.

(** The absolute [evaluate] on a template the prompting library accepts. *)
Lemma absolute_accepted_run
    (self : absolute_evaluator.GPTGraphicDesignAbsoluteEvaluator)
    (image : Image) (p : string) (t : option string) (n : Z) (w : World)
    (segs : list fstring.segment) :
  let t' := or_default t absolute_evaluator.DEFAULT_SYSTEM_PROMPT in
  let b := base64.b64encode (png_file image) in
  fstring.tokens t' = Ok segs ->
  absolute_evaluator.evaluate self image p t n w
  = match fstring.format segs (input_data p b) with
    | Ok s =>
        let req :=
          Request (two_messages absolute_evaluator.USER_PROMPT b s)
            (chain.schema_of absolute_evaluator.AbsoluteEvaluationResult) in
        (batch_outcome
           (replies (absolute_evaluator.llm self) (length (sent w))
              (Z.to_nat n) req),
         mkWorld (buffers w ++ [png_file image])
           (sent w ++ replicate (Z.to_nat n) req))
    | Raise e =>
        match Z.to_nat n with
        | O => (Ok [], encoded image w)
        | S _ => (Raise e, encoded image w)
        end
    end.
Proof.
  intros t' b Hp. rewrite absolute_evaluate_run. fold t' b.
  pose proof (composed_messages_shape t' absolute_evaluator.USER_PROMPT p b
                absolute_user_prompt_parse) as Hshape.
  unfold composed_messages, system_text in Hshape. rewrite Hp in Hshape.
  destruct (prompt_builds _ _ _ Hp absolute_user_prompt_parse)
    as [prompt Hbuild].
  rewrite Hbuild in *. cbn [chat.bind_result] in Hshape.
  destruct (fstring.format segs (input_data p b)) as [s|e];
    cbn [fstring.fmap_result] in Hshape.
  - by rewrite (batch_replicate
                  (C := absolute_evaluator.AbsoluteEvaluationResult)
                  (chain.pipe prompt (absolute_evaluator.llm self))
                  _ _ _ _ Hshape).
  - destruct (Z.to_nat n) as [|k]; [done|].
    by rewrite (batch_format_raise
                  (C := absolute_evaluator.AbsoluteEvaluationResult)
                  (chain.pipe prompt (absolute_evaluator.llm self))
                  _ _ _ _ Hshape).
Qed.

(** The legacy [evaluate] on a template the prompting library accepts. *)
Lemma legacy_accepted_run (self : evaluator.GPTGraphicDesignEvaluator)
    (image : Image) (p : string) (t : option string) (w : World)
    (segs : list fstring.segment) :
  let t' := or_default t evaluator.SYSTEM_PROMPT in
  let b := base64.b64encode (png_file image) in
  fstring.tokens t' = Ok segs ->
  evaluator.evaluate self image p t w
  = match fstring.format segs (input_data p b) with
    | Ok s =>
        let req :=
          Request (two_messages evaluator.USER_PROMPT b s)
            (chain.schema_of evaluator.EvaluationResult) in
        (chain.parse_reply
           (generate (evaluator.llm self) (length (sent w)) req),
         mkWorld (buffers w ++ [png_file image]) (sent w ++ [req]))
    | Raise e => (Raise e, encoded image w)
    end.
Proof.
  intros t' b Hp. rewrite legacy_evaluate_run. fold t' b.
  pose proof (composed_messages_shape t' evaluator.USER_PROMPT p b
                legacy_user_prompt_parse) as Hshape.
  unfold composed_messages, system_text in Hshape. rewrite Hp in Hshape.
  destruct (prompt_builds _ _ _ Hp legacy_user_prompt_parse)
    as [prompt Hbuild].
  rewrite Hbuild in *. cbn [chat.bind_result] in Hshape.
  destruct (fstring.format segs (input_data p b)) as [s|e];
    cbn [fstring.fmap_result] in Hshape.
  - by rewrite (invoke_run (C := evaluator.EvaluationResult)
                  (chain.pipe prompt (evaluator.llm self)) _ _ _ Hshape).
  - by rewrite (invoke_format_raise (C := evaluator.EvaluationResult)
                  (chain.pipe prompt (evaluator.llm self)) _ _ _ Hshape).
Qed.

End CustomTemplates.

(** ** Convenience operations, every tag *)

(** X1: the legacy module's own copy of the catalog is the same map as
    [prompts.DESIGN_PRINCIPLES], and for a valid tag the legacy [__call__]
    is the legacy [evaluate] on the catalog text with [SYSTEM_PROMPT], passed
    explicitly or left out. *)
Theorem legacy_call_forwards {imaging : Imaging} {lax : schema.Lax}
    (self : evaluator.GPTGraphicDesignEvaluator) (image : Image)
    (tag : string) :
  tag ∈ prompts.DesignPrinciple ->
  evaluator.DESIGN_PRINCIPLES = prompts.DESIGN_PRINCIPLES
  /\ exists text,
       prompts.DESIGN_PRINCIPLES !! tag = Some text
       /\ evaluator.DESIGN_PRINCIPLES !! tag = Some text
       /\ evaluator.__call__ self image tag
          = evaluator.evaluate self image text (Some evaluator.SYSTEM_PROMPT)
       /\ evaluator.__call__ self image tag
          = evaluator.evaluate self image text None.
Proof.
  intros Htag. split; [apply legacy_catalog_agrees|].
  destruct (proj1 (catalog_lookup_text tag) Htag) as (text & Hget).
  exists text. split; [done|].
  assert (Hold : evaluator.DESIGN_PRINCIPLES !! tag = Some text)
    by (by rewrite legacy_catalog_agrees).
  split; [done|].
  unfold evaluator.__call__, getitem. rewrite Hold.
  split; [reflexivity|].
  unfold evaluator.evaluate. cbv zeta.
  assert (or_default (Some evaluator.SYSTEM_PROMPT) evaluator.SYSTEM_PROMPT
          = or_default None evaluator.SYSTEM_PROMPT) as ->
    by (vm_compute; reflexivity).
  reflexivity.
Qed.

(** X2: with a tag that is not in the catalog, the [__call__] of each of
    the three evaluators raises [KeyError] for that tag and does nothing
    else: no image is encoded and no request is sent. *)
Theorem call_unknown_tag {imaging : Imaging} {lax : schema.Lax}
    (self : absolute_evaluator.GPTGraphicDesignAbsoluteEvaluator)
    (self' : relative_evaluator.GPTGraphicDesignRelativeEvaluator)
    (legacy : evaluator.GPTGraphicDesignEvaluator)
    (image image_a image_b : Image) (tag : string) (n : Z) (w : World) :
  tag ∉ prompts.DesignPrinciple ->
  absolute_evaluator.__call__ self image tag n w = (Raise (KeyError tag), w)
  /\ relative_evaluator.__call__ self' image_a image_b tag n w
     = (Raise (KeyError tag), w)
  /\ evaluator.__call__ legacy image tag w = (Raise (KeyError tag), w).
Proof.
  intros Htag.
  pose proof (proj2 (catalog_lookup_text tag) Htag) as Hnone.
  unfold absolute_evaluator.__call__, relative_evaluator.__call__,
    evaluator.__call__, getitem, bind, lift.
  by rewrite legacy_catalog_agrees, Hnone.
Qed.

(** X3: the relative evaluator's [__call__] never returns a result list,
    whatever the tag: a tag of the catalog ends in the unbound-name error
    for [image], any other tag in [KeyError]; either way nothing is encoded
    and nothing is sent. *)
Theorem relative_call_never_returns {imaging : Imaging} {lax : schema.Lax}
    (self : relative_evaluator.GPTGraphicDesignRelativeEvaluator)
    (image_a image_b : Image) (tag : string) (n : Z) (w : World) :
  let out := relative_evaluator.__call__ self image_a image_b tag n w in
  snd out = w
  /\ (forall rs, fst out <> Ok rs)
  /\ (tag ∈ prompts.DesignPrinciple -> fst out = Raise (NameError "image"))
  /\ (tag ∉ prompts.DesignPrinciple -> fst out = Raise (KeyError tag)).
Proof.
  cbv zeta.
  assert (Hin : tag ∈ prompts.DesignPrinciple ->
            relative_evaluator.__call__ self image_a image_b tag n w
            = (Raise (NameError "image"), w)).
  { intros Htag.
    destruct (proj1 (catalog_lookup_text tag) Htag) as (text & Hget).
    unfold relative_evaluator.__call__, getitem, bind, lift. rewrite Hget.
    rewrite relative_evaluate_run.
    assert (or_default (Some relative_evaluator.DEFAULT_SYSTEM_PROMPT)
              relative_evaluator.DEFAULT_SYSTEM_PROMPT
            = relative_evaluator.DEFAULT_SYSTEM_PROMPT) as ->
      by (vm_compute; reflexivity).
    destruct relative_default_parse as (pre & post & Hp).
    by destruct (prompt_builds _ _ _ Hp relative_user_prompt_parse)
      as [prompt ->]. }
  assert (Hout : tag ∉ prompts.DesignPrinciple ->
            relative_evaluator.__call__ self image_a image_b tag n w
            = (Raise (KeyError tag), w)).
  { intros Htag.
    pose proof (proj2 (catalog_lookup_text tag) Htag) as Hnone.
    unfold relative_evaluator.__call__, getitem, bind, lift.
    by rewrite Hnone. }
  destruct (decide (tag ∈ prompts.DesignPrinciple)) as [Htag|Htag].
  - rewrite (Hin Htag). by repeat split.
  - rewrite (Hout Htag). by repeat split.
Qed.

(** ** Legacy evaluator, on its own *)

Section LegacyAlone.

Context {imaging : Imaging} {lax : schema.Lax}.

Import schema llm.

(** X4: with the default template the legacy [evaluate] encodes the image
    once and sends exactly one request.  A result it returns has a score
    within 1..10 that is the score its reply carried; a reply that breaks
    the schema makes it raise a validation failure, and a failed transport
    the client's error. *)
Theorem legacy_evaluate_single_request
    (self : evaluator.GPTGraphicDesignEvaluator) (image : Image)
    (p : string) (w : World) :
  exists req : request,
    let out := evaluator.evaluate self image p None w in
    let reply := generate (evaluator.llm self) (length (sent w)) req in
    sent (snd out) = sent w ++ [req]
    /\ buffers (snd out) = buffers w ++ [png_file image]
    /\ (forall r, fst out = Ok r ->
          1 <= evaluator.score r <= 10
          /\ exists data,
               reply = json_object data
               /\ (forall z, data !! "score" = Some (JInt z) ->
                             evaluator.score r = z)
               /\ (forall s, data !! "explanation" = Some (JStr s) ->
                             evaluator.explanation r = s))
    /\ (schema_violation reply ->
        exists e, fst out = Raise e /\ is_validation_failure e = true)
    /\ (forall msg, reply = unreachable msg ->
                    fst out = Raise (TransportError msg)).
Proof.
  destruct legacy_default_parse as (pre & post & Hp).
  pose proof (legacy_accepted_run self image p None w _ Hp) as Hrun.
  cbv zeta in Hrun. cbn [fstring.format] in Hrun.
  unfold input_data at 1 in Hrun. rewrite lookup_insert_eq in Hrun.
  cbn [fstring.fmap_result] in Hrun.
  eexists. cbv zeta. rewrite Hrun. cbn [fst snd sent buffers].
  split; [reflexivity|]. split; [reflexivity|].
  match goal with |- context [generate ?m ?k ?r] =>
    destruct (generate m k r) as [msg|text|data] end.
  - split; [done|]. split; [done|]. by intros msg' [= <-].
  - split; [done|]. split; [|done]. intros _. by eexists.
  - cbn [chain.parse_reply schema_violation].
    pose proof (validate_agree data) as Hagree.
    split; [|split; [|done]].
    + intros r Hr. rewrite Hr in Hagree.
      destruct (model_validate
                  (C := absolute_evaluator.AbsoluteEvaluationResult) data)
        as [r'|] eqn:Hr'; [|done].
      destruct Hagree as [Hs He].
      destruct (absolute_validate_inv _ _ Hr') as (Hrange & Hscore & Hexp).
      rewrite Hs, He. split; [done|]. by exists data.
    + intros Hbad.
      pose proof (absolute_parse_violation (json_object data) Hbad) as Hno.
      cbn [chain.parse_reply] in Hno.
      destruct (model_validate (C := evaluator.EvaluationResult) data)
        as [r|e] eqn:Hr.
      * by destruct (model_validate
                  (C := absolute_evaluator.AbsoluteEvaluationResult) data).
      * exists e. split; [done|].
        by apply finish_raise in Hr as [errs ->].
Qed.

End LegacyAlone.

(** ** Absolute evaluator, beyond the default run *)

(** X5: with the default template, every request of the absolute
    [evaluate] consists of a system message, which is one fixed text before
    and one fixed text after the design-principle prompt spliced in
    verbatim (braces in the prompt are not read as placeholders), and a user
    message of the fixed instruction and a single image reference, the data
    URL of the base64 text of the PNG bytes. *)
Theorem absolute_request_shape :
  exists pre post : string,
    forall (imaging : Imaging) (lax : schema.Lax)
           (self : absolute_evaluator.GPTGraphicDesignAbsoluteEvaluator)
           (image : Image) (p : string) (n : Z) (w : World),
      let b := base64.b64encode (png_file image) in
      let msgs :=
        [chat.Message "system" [chat.text_block (pre +:+ p +:+ post)];
         chat.Message "user"
           [chat.text_block absolute_evaluator.USER_PROMPT;
            chat.image_url_block ("data:image/png;base64," +:+ b)]] in
      sent (snd (absolute_evaluator.evaluate self image p None n w))
      = sent w
        ++ replicate (Z.to_nat n)
             (llm.Request msgs
                (chain.schema_of
                   absolute_evaluator.AbsoluteEvaluationResult))
      /\ concat (map chat.image_urls msgs)
         = ["data:image/png;base64," +:+ b].
Proof.
  destruct absolute_default_parse as (pre & post & Hp).
  exists pre, post. intros imaging lax self image p n w. cbv zeta.
  split; [|reflexivity].
  pose proof (absolute_accepted_run self image p None n w _ Hp) as Hrun.
  cbv zeta in Hrun. cbn [fstring.format] in Hrun.
  unfold input_data at 1 in Hrun. rewrite lookup_insert_eq in Hrun.
  cbn [fstring.fmap_result] in Hrun. rewrite append_nil_r in Hrun.
  by rewrite Hrun.
Qed.

Section AbsoluteTemplates.

Context {imaging : Imaging} {lax : schema.Lax}.

Import schema llm.

(** X6: a system-prompt template that is not a well-formed format string
    (an unbalanced brace, for instance) makes the absolute and the legacy
    [evaluate] raise the scanner's [ValueError] at once, when the system
    message is built: the image is not encoded and nothing is sent. *)
Theorem rejected_template_stops_early
    (self : absolute_evaluator.GPTGraphicDesignAbsoluteEvaluator)
    (legacy : evaluator.GPTGraphicDesignEvaluator)
    (image : Image) (p : string) (t : option string) (n : Z) (w : World)
    (e : exn) :
  fstring.tokens (or_default t absolute_evaluator.DEFAULT_SYSTEM_PROMPT)
  = Raise e ->
  (exists msg, e = ValueError msg)
  /\ absolute_evaluator.evaluate self image p t n w = (Raise e, w)
  /\ evaluator.evaluate legacy image p t w = (Raise e, w).
Proof.
  intros Hp. split; [by apply (tokens_raise _ _ Hp)|].
  rewrite absolute_evaluate_run, legacy_evaluate_run.
  destruct legacy_constants_agree as [-> _].
  by rewrite !(build_prompt_raise _ _ _ Hp).
Qed.


(** X8: with a template that the library accepts and whose placeholders
    are among [design_principle] and [base64_image], the absolute
    [evaluate] sends [num_return] copies of one request, whose system
    message is the template filled in from the two inputs, and a list it
    returns has [num_return] results. *)
Theorem custom_template_requests
    (self : absolute_evaluator.GPTGraphicDesignAbsoluteEvaluator)
    (image : Image) (p : string) (t : option string) (n : Z) (w : World)
    (segs : list fstring.segment) :
  fstring.parse (or_default t absolute_evaluator.DEFAULT_SYSTEM_PROMPT)
  = Ok segs ->
  (forall name, name ∈ fstring.input_variables segs ->
                name = "design_principle" \/ name = "base64_image") ->
  let b := base64.b64encode (png_file image) in
  let out := absolute_evaluator.evaluate self image p t n w in
  exists s,
    fstring.format segs (input_data p b) = Ok s
    /\ sent (snd out)
       = sent w
         ++ replicate (Z.to_nat n)
              (Request (two_messages absolute_evaluator.USER_PROMPT b s)
                 (chain.schema_of
                    absolute_evaluator.AbsoluteEvaluationResult))
    /\ (forall rs, fst out = Ok rs -> length rs = Z.to_nat n).
Proof.
  intros Hp Hfields. cbv zeta.
  destruct (parse_tokens _ _ Hp) as [Htok Hplain].
  rewrite (absolute_accepted_run self image p t n w _ Htok).
  destruct (format_ok segs
              (input_data p (base64.b64encode (png_file image))) Hplain)
    as [s Hs].
  { intros name Hin. apply input_data_lookup. by apply Hfields. }
  exists s. rewrite Hs. cbn [fst snd sent].
  split; [done|]. split; [done|].
  intros rs Hrs. apply batch_outcome_ok_inv in Hrs as [Hlen _].
  by rewrite Hlen, length_replies.
Qed.


End AbsoluteTemplates.

(** ** The base64 text of the image *)

Ltac euclid := zify; Z.to_euclidean_division_equations; lia.

Section Base64.

Import base64.

Lemma below_64 (P : N -> bool) :
  forallb P (map N.of_nat (seq 0 64)) = true ->
  forall m, (m < 64)%N -> P m = true.
Proof.
  intros Hall m Hm. rewrite forallb_forall in Hall. apply Hall.
  apply in_map_iff. exists (N.to_nat m). split; [lia|].
  apply in_seq. lia.
Qed.

Lemma land_63_below (n : N) : (N.land n 63 < 64)%N.
Proof.
  change 63%N with (N.ones 6). rewrite N.land_ones.
  apply N.mod_lt. discriminate.
Qed.

Lemma value_sextet (n : N) : value (sextet n) = N.land n 63.
Proof.
  unfold sextet.
  pose proof (land_63_below n) as Hlt. revert Hlt.
  generalize (N.land n 63). intros m Hm.
  apply N.eqb_eq.
  revert m Hm. apply below_64. vm_compute. reflexivity.
Qed.

Lemma sextet_not_pad (n : N) : (sextet n =? pad)%char = false.
Proof.
  unfold sextet.
  pose proof (land_63_below n) as Hlt. revert Hlt.
  generalize (N.land n 63). intros m Hm.
  apply negb_true_iff.
  revert m Hm. apply below_64. vm_compute. reflexivity.
Qed.

Lemma sextet_base64_char (n : N) : base64_char (sextet n) = true.
Proof.
  unfold sextet.
  pose proof (land_63_below n) as Hlt. revert Hlt.
  generalize (N.land n 63). intros m Hm.
  revert m Hm. apply below_64. vm_compute. reflexivity.
Qed.

Lemma lor_shiftl_add (x y k : N) :
  (y < 2 ^ k)%N -> N.lor (N.shiftl x k) y = (x * 2 ^ k + y)%N.
Proof.
  intros Hy.
  rewrite <- N.lxor_lor, <- N.add_nocarry_lxor, N.shiftl_mul_pow2;
    try reflexivity.
  all: apply N.bits_inj; intros i; rewrite N.land_spec, N.bits_0;
    destruct (N.ltb_spec i k) as [Hi|Hi].
  all: try (rewrite N.shiftl_spec_low by assumption; reflexivity).
  all: rewrite <- (N.mod_small y (2 ^ k)) by assumption;
    rewrite N.mod_pow2_bits_high by assumption; apply Bool.andb_false_r.
Qed.

(** Three bytes side by side are one 24-bit number. *)
Lemma pack3 (a b c : N) :
  (a <= 255)%N -> (b <= 255)%N -> (c <= 255)%N ->
  N.lor (N.lor (N.shiftl a 16) (N.shiftl b 8)) c
  = (a * 65536 + b * 256 + c)%N.
Proof.
  intros Ha Hb Hc.
  assert (N.lor (N.shiftl a 16) (N.shiftl b 8)
          = N.shiftl (a * 256 + b) 8) as ->.
  { rewrite (lor_shiftl_add a (N.shiftl b 8) 16).
    - rewrite !N.shiftl_mul_pow2.
      change (2 ^ 16)%N with 65536%N. change (2 ^ 8)%N with 256%N. lia.
    - rewrite N.shiftl_mul_pow2.
      change (2 ^ 16)%N with 65536%N. change (2 ^ 8)%N with 256%N. lia. }
  rewrite lor_shiftl_add by (change (2 ^ 8)%N with 256%N; lia).
  change (2 ^ 8)%N with 256%N. lia.
Qed.

(** Four 6-bit values side by side are one 24-bit number. *)
Lemma pack4 (v1 v2 v3 v4 : N) :
  (v1 < 64)%N -> (v2 < 64)%N -> (v3 < 64)%N -> (v4 < 64)%N ->
  N.lor (N.lor (N.lor (N.shiftl v1 18) (N.shiftl v2 12)) (N.shiftl v3 6)) v4
  = (v1 * 262144 + v2 * 4096 + v3 * 64 + v4)%N.
Proof.
  intros H1 H2 H3 H4.
  assert (N.lor (N.shiftl v1 18) (N.shiftl v2 12)
          = N.shiftl (v1 * 64 + v2) 12) as ->.
  { rewrite (lor_shiftl_add v1 (N.shiftl v2 12) 18).
    - rewrite !N.shiftl_mul_pow2.
      change (2 ^ 18)%N with 262144%N. change (2 ^ 12)%N with 4096%N. lia.
    - rewrite N.shiftl_mul_pow2.
      change (2 ^ 18)%N with 262144%N. change (2 ^ 12)%N with 4096%N. lia. }
  assert (N.lor (N.shiftl (v1 * 64 + v2) 12) (N.shiftl v3 6)
          = N.shiftl ((v1 * 64 + v2) * 64 + v3) 6) as ->.
  { rewrite (lor_shiftl_add (v1 * 64 + v2) (N.shiftl v3 6) 12).
    - rewrite !N.shiftl_mul_pow2.
      change (2 ^ 12)%N with 4096%N. change (2 ^ 6)%N with 64%N. lia.
    - rewrite N.shiftl_mul_pow2.
      change (2 ^ 12)%N with 4096%N. change (2 ^ 6)%N with 64%N. lia. }
  rewrite lor_shiftl_add by (change (2 ^ 6)%N with 64%N; lia).
  change (2 ^ 6)%N with 64%N. lia.
Qed.

Lemma land_63_mod (n : N) : N.land n 63 = (n mod 64)%N.
Proof. change 63%N with (N.ones 6). by rewrite N.land_ones. Qed.

Lemma shiftr_div (n : N) :
  N.shiftr n 6 = (n / 64)%N /\ N.shiftr n 8 = (n / 256)%N
  /\ N.shiftr n 12 = (n / 4096)%N /\ N.shiftr n 16 = (n / 65536)%N
  /\ N.shiftr n 18 = (n / 262144)%N.
Proof. by rewrite !N.shiftr_div_pow2. Qed.

Lemma octet_of (x : N) (a : byte) :
  (x mod 256)%N = Byte.to_N a -> octet x = a.
Proof.
  intros Hx. unfold octet.
  change 255%N with (N.ones 8). rewrite N.land_ones.
  change (2 ^ 8)%N with 256%N. by rewrite Hx, Byte.of_to_N.
Qed.

(** The four characters of a group give its 24-bit number back. *)
Lemma regroup (n : N) :
  (n < 16777216)%N ->
  N.lor (N.lor (N.lor (N.shiftl (value (sextet (N.shiftr n 18))) 18)
                      (N.shiftl (value (sextet (N.shiftr n 12))) 12))
               (N.shiftl (value (sextet (N.shiftr n 6))) 6))
        (value (sextet n)) = n.
Proof.
  intros Hn. rewrite !value_sextet.
  rewrite pack4 by apply land_63_below.
  rewrite !land_63_mod.
  destruct (shiftr_div n) as (-> & _ & -> & _ & ->).
  euclid.
Qed.

End Base64.
Section RoundTrip.

Import base64.

Lemma decode_group (c1 c2 c3 c4 : ascii) (s : string) :
  b64decode (String c1 (String c2 (String c3 (String c4 s))))
  = let n := N.lor (N.lor (N.lor (N.shiftl (value c1) 18)
                                 (N.shiftl (value c2) 12))
                          (N.shiftl (value c3) 6)) (value c4) in
    if (c3 =? pad)%char then [octet (N.shiftr n 16)]
    else if (c4 =? pad)%char then
      [octet (N.shiftr n 16); octet (N.shiftr n 8)]
    else
      octet (N.shiftr n 16) :: octet (N.shiftr n 8) :: octet n
      :: b64decode s.
Proof. reflexivity. Qed.

Lemma encode_three (a b c : byte) (bs : list byte) :
  b64encode (a :: b :: c :: bs)
  = let n := N.lor (N.lor (N.shiftl (Byte.to_N a) 16)
                          (N.shiftl (Byte.to_N b) 8)) (Byte.to_N c) in
    String (sextet (N.shiftr n 18)) (String (sextet (N.shiftr n 12))
      (String (sextet (N.shiftr n 6)) (String (sextet n) (b64encode bs)))).
Proof. reflexivity. Qed.

Lemma decode_encode_three (a b c : byte) (bs : list byte) :
  b64decode (b64encode (a :: b :: c :: bs))
  = a :: b :: c :: b64decode (b64encode bs).
Proof.
  pose proof (Byte.to_N_bounded a) as Ha.
  pose proof (Byte.to_N_bounded b) as Hb.
  pose proof (Byte.to_N_bounded c) as Hc.
  rewrite encode_three. cbv zeta. rewrite decode_group. cbv zeta.
  rewrite !sextet_not_pad.
  rewrite pack3 by done.
  rewrite regroup by lia.
  destruct (shiftr_div (Byte.to_N a * 65536 + Byte.to_N b * 256
                        + Byte.to_N c)) as (_ & -> & _ & -> & _).
  f_equal; [|f_equal; [|f_equal]]; apply octet_of; euclid.
Qed.

Lemma decode_encode_one (a : byte) : b64decode (b64encode [a]) = [a].
Proof.
  pose proof (Byte.to_N_bounded a) as Ha.
  change (b64encode [a])
    with (let n := N.shiftl (Byte.to_N a) 16 in
          String (sextet (N.shiftr n 18)) (String (sextet (N.shiftr n 12))
            (String pad (String pad EmptyString)))).
  cbv zeta. rewrite decode_group. cbv zeta.
  change (pad =? pad)%char with true. cbv iota.
  change (value pad) with 0%N.
  rewrite !value_sextet.
  rewrite pack4 by (try apply land_63_below; lia).
  rewrite !land_63_mod. rewrite N.shiftl_mul_pow2.
  change (2 ^ 16)%N with 65536%N.
  destruct (shiftr_div (Byte.to_N a * 65536)) as (_ & _ & -> & _ & ->).
  match goal with |- [octet (N.shiftr ?m 16)] = _ =>
    destruct (shiftr_div m) as (_ & _ & _ & -> & _) end.
  f_equal. apply octet_of. euclid.
Qed.

Lemma decode_encode_two (a b : byte) : b64decode (b64encode [a; b]) = [a; b].
Proof.
  pose proof (Byte.to_N_bounded a) as Ha.
  pose proof (Byte.to_N_bounded b) as Hb.
  change (b64encode [a; b])
    with (let n := N.lor (N.shiftl (Byte.to_N a) 16)
                         (N.shiftl (Byte.to_N b) 8) in
          String (sextet (N.shiftr n 18)) (String (sextet (N.shiftr n 12))
            (String (sextet (N.shiftr n 6)) (String pad EmptyString)))).
  cbv zeta. rewrite decode_group. cbv zeta.
  rewrite sextet_not_pad.
  change (pad =? pad)%char with true. cbv iota.
  change (value pad) with 0%N.
  rewrite !value_sextet.
  rewrite pack4 by (try apply land_63_below; lia).
  rewrite !land_63_mod.
  rewrite <- (N.lor_0_r (N.lor _ _)). rewrite pack3 by lia.
  destruct (shiftr_div (Byte.to_N a * 65536 + Byte.to_N b * 256 + 0))
    as (-> & _ & -> & _ & ->).
  match goal with |- [octet (N.shiftr ?m 16); _] = _ =>
    destruct (shiftr_div m) as (_ & -> & _ & -> & _) end.
  f_equal; [|f_equal]; apply octet_of; euclid.
Qed.

End RoundTrip.
Section Payload.

Import base64.

Lemma list_ind3 {A} (P : list A -> Prop) :
  P [] -> (forall a, P [a]) -> (forall a b, P [a; b]) ->
  (forall a b c l, P l -> P (a :: b :: c :: l)) ->
  forall l, P l.
Proof.
  intros H0 H1 H2 H3 l.
  assert (P l /\ (forall a, P (a :: l)) /\ (forall a b, P (a :: b :: l)))
    as [Hl _]; [|exact Hl].
  induction l as [|x l (IH0 & IH1 & IH2)]; [by auto|].
  split; [apply IH1|]. split; [intros a; apply IH2|].
  intros a b. by apply H3.
Qed.

Lemma b64decode_b64encode (bs : list byte) : b64decode (b64encode bs) = bs.
Proof.
  induction bs as [|a|a b|a b c bs IH] using list_ind3.
  - reflexivity.
  - apply decode_encode_one.
  - apply decode_encode_two.
  - by rewrite decode_encode_three, IH.
Qed.

Lemma b64encode_length (bs : list byte) :
  String.length (b64encode bs) = (4 * ((length bs + 2) / 3))%nat.
Proof.
  induction bs as [|a|a b|a b c bs IH] using list_ind3; try reflexivity.
  rewrite encode_three. cbv zeta. cbn [String.length length]. rewrite IH.
  replace (S (S (S (length bs))) + 2)%nat
    with (1 * 3 + (length bs + 2))%nat by lia.
  rewrite Nat.div_add_l by lia. lia.
Qed.

Lemma b64encode_chars (bs : list byte) (c : ascii) :
  In c (list_ascii_of_string (b64encode bs)) -> base64_char c = true.
Proof.
  induction bs as [|a|a b|a b c0 bs IH] using list_ind3.
  - intros [].
  - intros [<-|[<-|[<-|[<-|[]]]]];
      try apply sextet_base64_char; reflexivity.
  - intros [<-|[<-|[<-|[<-|[]]]]];
      try apply sextet_base64_char; reflexivity.
  - rewrite encode_three. cbv zeta. cbn [list_ascii_of_string].
    intros [<-|[<-|[<-|[<-|Hin]]]];
      try apply sextet_base64_char. by apply IH.
Qed.

(** X10: the payload that [image_to_base64] returns has four characters
    for every three bytes of the PNG file, the last group padded, and is
    made of the letters, digits, [+], [/] and [=] of base64 only. *)
Theorem image_payload_shape {imaging : Imaging} (image : Image)
    (w : World) :
  exists s,
    fst (utils.image_to_base64 image w) = Ok s
    /\ String.length s = (4 * ((length (png_file image) + 2) / 3))%nat
    /\ (String.length s mod 4 = 0)%nat
    /\ forall c, In c (list_ascii_of_string s) -> base64_char c = true.
Proof.
  rewrite image_to_base64_run. eexists. split; [reflexivity|].
  split; [apply b64encode_length|]. split; [|apply b64encode_chars].
  rewrite b64encode_length.
  by rewrite Nat.mul_comm, Nat.Div0.mod_mul.
Qed.

(** X11: the payload loses nothing: reading it back four characters at a
    time gives the bytes of the PNG file, so two images get the same payload
    only when their PNG files are the same, in whatever state of the world
    each is encoded. *)
Theorem image_payload_round_trip {imaging : Imaging} (image image' : Image)
    (w w' : World) :
  (exists s, fst (utils.image_to_base64 image w) = Ok s
             /\ b64decode s = png_file image)
  /\ (fst (utils.image_to_base64 image w)
      = fst (utils.image_to_base64 image' w') ->
      png_file image = png_file image').
Proof.
  rewrite !image_to_base64_run. cbn [fst]. split.
  - eexists. split; [reflexivity|]. apply b64decode_b64encode.
  - intros [= Heq].
    by rewrite <- (b64decode_b64encode (png_file image)), Heq,
      b64decode_b64encode.
Qed.

End Payload.
(** * Runs on concrete inputs *)

Import doubles.

Lemma catalog_lookup_witness :
  (exists text, getitem prompts.DESIGN_PRINCIPLES "overlap" = Ok text
                /\ text <> EmptyString /\ (0 < String.length text)%nat)
  /\ getitem prompts.DESIGN_PRINCIPLES "colour" = Raise (KeyError "colour").
Proof.
  split.
  - apply (proj1 (catalog_lookup "overlap")).
    apply (bool_decide_unpack _). vm_compute. exact I.
  - apply (proj2 (catalog_lookup "colour")).
    apply (bool_decide_unpack _). vm_compute. exact I.
Defined.

Lemma call_forwards_to_evaluate_witness :
  exists text,
    prompts.DESIGN_PRINCIPLES !! "whitespace" = Some text
    /\ absolute_evaluator.__call__ mock_absolute white_pixel "whitespace" 2
       = absolute_evaluator.evaluate mock_absolute white_pixel text
           (Some absolute_evaluator.DEFAULT_SYSTEM_PROMPT) 2
    /\ absolute_evaluator.__call__ mock_absolute white_pixel "whitespace" 2
       = absolute_evaluator.evaluate mock_absolute white_pixel text None 2
    /\ relative_evaluator.__call__ mock_relative white_pixel black_pixel
         "whitespace" 2
       = relative_evaluator.evaluate mock_relative white_pixel black_pixel
           text (Some relative_evaluator.DEFAULT_SYSTEM_PROMPT) 2
    /\ relative_evaluator.__call__ mock_relative white_pixel black_pixel
         "whitespace" 2
       = relative_evaluator.evaluate mock_relative white_pixel black_pixel
           text None 2.
Proof.
  apply call_forwards_to_evaluate.
  apply (bool_decide_unpack _). vm_compute. exact I.
Defined.

(** C1, on the code: comparing a white and a black pixel on the overlap
    principle composes no request at all.  The call stops at the unbound
    name [image], with nothing encoded and nothing sent, and the prompt it
    had built holds a single image reference, so that one payload at most
    could have been sent. *)
Theorem relative_evaluate_sends_no_image_pair :
  relative_evaluator.evaluate mock_relative white_pixel black_pixel
    prompts.DEFAULT_OVERLAP_DESIGN_PRINCIPLE None 1 empty_world
  = (Raise (NameError "image"), empty_world)
  /\ exists msgs,
       composed_messages relative_evaluator.DEFAULT_SYSTEM_PROMPT
         relative_evaluator.USER_PROMPT
         prompts.DEFAULT_OVERLAP_DESIGN_PRINCIPLE
         (base64.b64encode (png_file white_pixel)) = Ok msgs
       /\ length (concat (map chat.image_urls msgs)) = 1%nat.
Proof.
  split; [vm_compute; reflexivity|].
  destruct (relative_prompt_single_image
              prompts.DEFAULT_OVERLAP_DESIGN_PRINCIPLE
              (base64.b64encode (toy_png white_pixel)))
    as (msgs & Hm & Hurls).
  exists msgs. split; [done|]. by rewrite Hurls.
Qed.




Lemma absolute_evaluate_surfaces_violation_witness :
  exists e,
    fst (absolute_evaluator.evaluate
           overrating white_pixel prompts.DEFAULT_ALIGNMENT_DESIGN_PRINCIPLE None 2
           empty_world) = Raise e
    /\ is_validation_failure e = true.
Proof.
  destruct (absolute_evaluate_surfaces_violation (imaging := toy_imaging)
              (lax := strict)
              overrating white_pixel prompts.DEFAULT_ALIGNMENT_DESIGN_PRINCIPLE 2
              empty_world)
    as (req & _ & Hbad & _).
  destruct (Hbad 0%nat) as (e & He & Hkind).
  - vm_compute. lia.
  - right. right. exists 99. split; [reflexivity|lia].
  - exists e. split; [exact He|]. apply Hkind. discriminate.
Defined.

Lemma legacy_agrees_with_absolute_witness :
  match fst (evaluator.evaluate mock_legacy white_pixel
               prompts.DEFAULT_WHITE_SPACE_DESIGN_PRINCIPLE None empty_world),
        fst (absolute_evaluator.evaluate mock_absolute white_pixel
               prompts.DEFAULT_WHITE_SPACE_DESIGN_PRINCIPLE None 1
               empty_world) with
  | Ok r, Ok [r'] =>
      evaluator.score r = absolute_evaluator.score r'
      /\ evaluator.explanation r = absolute_evaluator.explanation r'
  | Raise e, Raise e' => same_failure e e'
  | _, _ => False
  end.
Proof.
  apply (legacy_agrees_with_absolute (imaging := toy_imaging)
           (lax := strict) mock_legacy mock_absolute white_pixel
           prompts.DEFAULT_WHITE_SPACE_DESIGN_PRINCIPLE None empty_world).
  intros k msgs. reflexivity.
Defined.

(** ** Runs for the further properties *)

Lemma legacy_call_forwards_witness :
  exists text,
    evaluator.DESIGN_PRINCIPLES !! "alignment" = Some text
    /\ evaluator.__call__ mock_legacy white_pixel "alignment"
       = evaluator.evaluate mock_legacy white_pixel text None.
Proof.
  destruct (legacy_call_forwards (imaging := toy_imaging) (lax := strict)
              mock_legacy white_pixel "alignment")
    as (_ & text & _ & Hold & _ & Hcall).
  - apply (bool_decide_unpack _). vm_compute. exact I.
  - exists text. split; [exact Hold|exact Hcall].
Defined.

Lemma call_unknown_tag_witness :
  absolute_evaluator.__call__ mock_absolute white_pixel "balance" 1
    empty_world
  = (Raise (KeyError "balance"), empty_world).
Proof.
  apply (call_unknown_tag (imaging := toy_imaging) (lax := strict)
           mock_absolute mock_relative mock_legacy
           white_pixel white_pixel black_pixel "balance" 1 empty_world).
  apply (bool_decide_unpack _). vm_compute. exact I.
Defined.

Lemma rejected_template_stops_early_witness :
  absolute_evaluator.evaluate mock_absolute white_pixel "p" (Some "}") 2
    empty_world
  = (Raise (ValueError "Single '}' encountered in format string"),
     empty_world).
Proof.
  apply (rejected_template_stops_early (imaging := toy_imaging)
           (lax := strict) mock_absolute mock_legacy white_pixel "p"
           (Some "}") 2 empty_world).
  vm_compute. reflexivity.
Defined.


Lemma custom_template_requests_witness :
  exists s,
    fstring.format
      [fstring.Lit "Judge by: "; fstring.Field "design_principle"]
      (input_data "p" (base64.b64encode (png_file white_pixel))) = Ok s
    /\ length (sent (snd (absolute_evaluator.evaluate mock_absolute
                            white_pixel "p"
                            (Some "Judge by: {design_principle}") 2
                            empty_world))) = 2%nat.
Proof.
  destruct (custom_template_requests (imaging := toy_imaging)
              (lax := strict) mock_absolute white_pixel "p"
              (Some "Judge by: {design_principle}") 2 empty_world
              [fstring.Lit "Judge by: "; fstring.Field "design_principle"])
    as (s & Hs & Hsent & _).
  - vm_compute. reflexivity.
  - intros name Hin. left.
    apply elem_of_cons in Hin as [Hin|Hin]; [exact Hin|by inversion Hin].
  - exists s. split; [exact Hs|]. rewrite Hsent. reflexivity.
Defined.

